(** * cairocffi: handle ownership, type dispatch, keep-alive registry
      and stream adapters of [surfaces.py] and [patterns.py].

    The Python code is embedded as state-passing functions over a [World]
    that holds what the code can observe or mutate: the state of the
    foreign cairo library, the log of foreign calls issued, the finalizers
    registered with [ffi.gc], the heap of wrapper objects, the class-level
    set [KeepAlive.instances], raw memory and the state of user objects
    (file-like objects).  An operation returns the new world together with
    either a value or the exception it raised. *)

From Stdlib Require Import ZArith Lia Strings.Byte.
From stdpp Require Import gmap strings list fin_maps pretty.

Local Open Scope string_scope.
Local Open Scope Z_scope.

(** ** Values crossing the foreign boundary *)

(** A [cdata] pointer is its address; [ffi.NULL] is address 0. *)
Definition pointer := Z.
Definition NULL : pointer := 0.

Abbreviation bytes := (list Byte.byte).

Global Instance byte_eq_dec : EqDecision Byte.byte := Byte.byte_eq_dec.

(** cffi hands enum values to Python as strings: ['SUCCESS'], ['IMAGE']. *)
Definition status := string.
Definition SUCCESS : status := "SUCCESS".
Definition READ_ERROR : status := "READ_ERROR".
Definition WRITE_ERROR : status := "WRITE_ERROR".

(** The classes of both modules. *)
Inductive class :=
| Surface | ImageSurface | PDFSurface | PSSurface | SVGSurface
| RecordingSurface
| Pattern | SolidPattern | SurfacePattern | Gradient | LinearGradient
| RadialGradient.

Global Instance class_eq_dec : EqDecision class.
Proof. solve_decision. Defined.

(** The destructor handed to [ffi.gc]. *)
Inductive destructor := surface_destroy | pattern_destroy.

Global Instance destructor_eq_dec : EqDecision destructor.
Proof. solve_decision. Defined.

(** Exceptions the modelled code raises.  [CairoError] is the typed status
    error, carrying the status verbatim. *)
Inductive exn :=
| ValueError (msg : string)
| KeyError
| CairoError (st : status)
| OtherError (msg : string).

Inductive result (A : Type) :=
| Ok (a : A)
| Raise (e : exn).
Arguments Ok {A} a.
Arguments Raise {A} e.

(** The foreign calls the wrappers issue, as they appear in the log. *)
Inductive call :=
| call_surface_status (p : pointer)
| call_pattern_status (p : pointer)
| call_surface_get_type (p : pointer)
| call_pattern_get_type (p : pointer)
| call_surface_reference (p : pointer)
| call_pattern_reference (p : pointer)
| call_surface_destroy (p : pointer)
| call_pattern_destroy (p : pointer)
| call_surface_set_user_data (p : pointer) (callback : nat)
| call_surface_set_mime_data (p : pointer) (mime : string) (data : option bytes)
    (callback : option nat)
| call_surface_method (name : string) (p : pointer)
| call_pattern_method (name : string) (p : pointer) (arg : string)
| call_format_stride_for_width (format : string) (width : Z)
| call_image_surface_create (format : string) (width height : Z)
| call_image_surface_create_for_data (address : Z) (format : string)
    (width height stride : Z).

Global Instance call_eq_dec : EqDecision call.
Proof. solve_decision. Defined.

(** The foreign library is a black box: a state of its own and, per entry
    point, what it answers and how its state moves. *)
Record CairoLib := {
  cairo_state : Type;
  lib_surface_status : cairo_state → pointer → status;
  lib_pattern_status : cairo_state → pointer → status;
  lib_surface_get_type : cairo_state → pointer → string;
  lib_pattern_get_type : cairo_state → pointer → string;
  lib_surface_reference : cairo_state → pointer → cairo_state;
  lib_pattern_reference : cairo_state → pointer → cairo_state;
  lib_surface_destroy : cairo_state → pointer → cairo_state;
  lib_pattern_destroy : cairo_state → pointer → cairo_state;
  lib_surface_set_user_data : cairo_state → pointer → nat → cairo_state * status;
  lib_surface_set_mime_data :
    cairo_state → pointer → string → option bytes → option nat →
    cairo_state * status;
  lib_surface_method : string → cairo_state → pointer → cairo_state;
  lib_pattern_method : string → cairo_state → pointer → string → cairo_state;
  lib_format_stride_for_width : string → Z → Z;
  lib_image_surface_create :
    cairo_state → string → Z → Z → cairo_state * pointer;
  lib_image_surface_create_for_data :
    cairo_state → Z → string → Z → Z → Z → cairo_state * pointer;
}.

(** A wrapper object on the Python heap: its class and, once [__init__]
    has run its first line, the [ffi.gc] cdata stored in [self._pointer]. *)
Record cdata := {
  cd_id : nat;
  cd_addr : pointer;
}.

Record instance := {
  inst_class : class;
  inst_pointer : option cdata;
}.

(** A buffer object passed as image data: an [array.array] (it has
    [buffer_info] and [itemsize]) or another writable buffer, one that
    [ctypes.c_char.from_buffer] accepts, of [len] items. *)
Inductive buffer_obj :=
| ArrayArray (address : Z) (length : Z) (itemsize : Z)
| OtherBuffer (address : Z) (len : Z) (itemsize : Z).

Global Instance buffer_obj_eq_dec : EqDecision buffer_obj.
Proof. solve_decision. Defined.

(** An auxiliary Python object that may have to outlive a call. *)
Inductive pyobj :=
| PyNone
| FfiNULL
| PyBuffer (b : buffer_obj)
| PyCData (content : bytes)
| PyCallback (id : nat).

Global Instance pyobj_eq_dec : EqDecision pyobj.
Proof. solve_decision. Defined.

(** A [KeepAlive] object: its identity, the objects it holds and the
    [(callback, callback)] closure, the callback identified by the
    [KeepAlive] it removes. *)
Record KeepAlive := {
  ka_id : nat;
  ka_objects : list pyobj;
  ka_closure : nat * nat;
}.

Section Embedding.

(** [PyState]: state of the objects the caller supplies (file-like
    objects). *)
Context {L : CairoLib} {PyState : Type}.

Record World := {
  foreign : cairo_state L;
  trace : list call;
  finalizers : gmap nat (pointer * destructor);
  next_cdata : nat;
  heap : gmap nat instance;
  next_obj : nat;
  instances : gset nat;
  memory : gmap Z Byte.byte;
  py : PyState;
}.

(** State and exceptions: an exception keeps the effects done so far. *)
Definition M (A : Type) : Type := World → World * result A.

Definition ret {A} (a : A) : M A := λ w, (w, Ok a).

Definition bind {A B} (m : M A) (k : A → M B) : M B :=
  λ w, match m w with
       | (w', Ok a) => k a w'
       | (w', Raise e) => (w', Raise e)
       end.

Definition raise {A} (e : exn) : M A := λ w, (w, Raise e).

Definition exec {A} (m : M A) (w : World) : World := fst (m w).
Definition outcome {A} (m : M A) (w : World) : result A := snd (m w).

End Embedding.

Arguments World L PyState : clear implicits.
Arguments M L PyState A : clear implicits.

Global Instance M_ret L S : MRet (M L S) := λ A, ret.
Global Instance M_bind L S : MBind (M L S) := λ A B k m, bind m k.

(** ** Primitive effects *)

Section Primitives.

Context {L : CairoLib} {PyState : Type}.
Local Abbreviation World := (World L PyState).
Local Abbreviation M := (M L PyState).

Definition set_foreign (f : cairo_state L) (c : call) (w : World) : World :=
  {| foreign := f; trace := trace w ++ [c]; finalizers := finalizers w;
     next_cdata := next_cdata w; heap := heap w; next_obj := next_obj w;
     instances := instances w; memory := memory w; py := py w |}.

Definition set_finalizers (fz : gmap nat (pointer * destructor)) (n : nat)
    (w : World) : World :=
  {| foreign := foreign w; trace := trace w; finalizers := fz;
     next_cdata := n; heap := heap w; next_obj := next_obj w;
     instances := instances w; memory := memory w; py := py w |}.

Definition set_heap (h : gmap nat instance) (n : nat) (w : World) : World :=
  {| foreign := foreign w; trace := trace w; finalizers := finalizers w;
     next_cdata := next_cdata w; heap := h; next_obj := n;
     instances := instances w; memory := memory w; py := py w |}.

Definition set_instances (s : gset nat) (w : World) : World :=
  {| foreign := foreign w; trace := trace w; finalizers := finalizers w;
     next_cdata := next_cdata w; heap := heap w; next_obj := next_obj w;
     instances := s; memory := memory w; py := py w |}.

Definition set_memory (m : gmap Z Byte.byte) (w : World) : World :=
  {| foreign := foreign w; trace := trace w; finalizers := finalizers w;
     next_cdata := next_cdata w; heap := heap w; next_obj := next_obj w;
     instances := instances w; memory := m; py := py w |}.

Definition set_py (s : PyState) (w : World) : World :=
  {| foreign := foreign w; trace := trace w; finalizers := finalizers w;
     next_cdata := next_cdata w; heap := heap w; next_obj := next_obj w;
     instances := instances w; memory := memory w; py := s |}.

(** A foreign call that only answers. *)
Definition query {A} (c : call) (f : cairo_state L → A) : M A :=
  λ w, (set_foreign (foreign w) c w, Ok (f (foreign w))).

(** A foreign call that moves the library's state. *)
Definition command (c : call) (f : cairo_state L → cairo_state L) : M unit :=
  λ w, (set_foreign (f (foreign w)) c w, Ok ()).

(** A foreign call that moves the library's state and answers. *)
Definition request {A} (c : call) (f : cairo_state L → cairo_state L * A) : M A :=
  λ w, (set_foreign (f (foreign w)).1 c w, Ok (f (foreign w)).2).

Definition cairo_surface_status (p : pointer) : M status :=
  query (call_surface_status p) (λ s, lib_surface_status L s p).
Definition cairo_pattern_status (p : pointer) : M status :=
  query (call_pattern_status p) (λ s, lib_pattern_status L s p).
Definition cairo_surface_get_type (p : pointer) : M string :=
  query (call_surface_get_type p) (λ s, lib_surface_get_type L s p).
Definition cairo_pattern_get_type (p : pointer) : M string :=
  query (call_pattern_get_type p) (λ s, lib_pattern_get_type L s p).
Definition cairo_surface_reference (p : pointer) : M unit :=
  command (call_surface_reference p) (λ s, lib_surface_reference L s p).
Definition cairo_pattern_reference (p : pointer) : M unit :=
  command (call_pattern_reference p) (λ s, lib_pattern_reference L s p).
Definition cairo_surface_destroy (p : pointer) : M unit :=
  command (call_surface_destroy p) (λ s, lib_surface_destroy L s p).
Definition cairo_pattern_destroy (p : pointer) : M unit :=
  command (call_pattern_destroy p) (λ s, lib_pattern_destroy L s p).
Definition cairo_surface_set_user_data (p : pointer) (cb : nat) : M status :=
  request (call_surface_set_user_data p cb)
    (λ s, lib_surface_set_user_data L s p cb).
Definition cairo_surface_set_mime_data (p : pointer) (mime : string)
    (data : option bytes) (cb : option nat) : M status :=
  request (call_surface_set_mime_data p mime data cb)
    (λ s, lib_surface_set_mime_data L s p mime data cb).
Definition cairo_surface_method (name : string) (p : pointer) : M unit :=
  command (call_surface_method name p) (λ s, lib_surface_method L name s p).
Definition cairo_pattern_method (name : string) (p : pointer) (arg : string)
    : M unit :=
  command (call_pattern_method name p arg)
    (λ s, lib_pattern_method L name s p arg).
Definition cairo_format_stride_for_width (format : string) (width : Z) : M Z :=
  query (call_format_stride_for_width format width)
    (λ _, lib_format_stride_for_width L format width).
Definition cairo_image_surface_create (format : string) (width height : Z)
    : M pointer :=
  request (call_image_surface_create format width height)
    (λ s, lib_image_surface_create L s format width height).
Definition cairo_image_surface_create_for_data (address : Z) (format : string)
    (width height stride : Z) : M pointer :=
  request (call_image_surface_create_for_data address format width height stride)
    (λ s, lib_image_surface_create_for_data L s address format width height
            stride).

(** [ffi.gc(pointer, destructor)]: a new cdata owning the pointer; the
    destructor runs once, when that cdata is reclaimed. *)
Definition ffi_gc (p : pointer) (d : destructor) : M cdata :=
  λ w, let c := next_cdata w in
       (set_finalizers (<[c := (p, d)]> (finalizers w)) (S c) w,
        Ok {| cd_id := c; cd_addr := p |}).

Definition run_destructor (d : destructor) (p : pointer) : M unit :=
  match d with
  | surface_destroy => cairo_surface_destroy p
  | pattern_destroy => cairo_pattern_destroy p
  end.

(** The cdata is reclaimed: its finalizer, if still registered, runs and
    is dropped. *)
Definition collect (c : cdata) : M unit :=
  λ w, match finalizers w !! cd_id c with
       | Some (p, d) =>
           run_destructor d p
             (set_finalizers (delete (cd_id c) (finalizers w)) (next_cdata w) w)
       | None => (w, Ok ())
       end.

(** [ffi.callback(type, f, error=e)]: an exception raised by [f] does not
    cross the boundary; the foreign caller receives [e]. *)
Definition ffi_callback {A} (error : A) (f : M A) : M A :=
  λ w, match f w with
       | (w', Ok a) => (w', Ok a)
       | (w', Raise _) => (w', Ok error)
       end.

(** Modelled from the spec: [_check_status] of the package's [__init__],
    the StatusChecker: a non-success status raises the typed status error
    carrying the code verbatim. *)
Definition _check_status (st : status) : M unit :=
  if decide (st = SUCCESS) then mret () else raise (CairoError st).

(** [object.__new__(cls)] *)
Definition object_new (cls : class) : M nat :=
  λ w, let o := next_obj w in
       (set_heap (<[o := {| inst_class := cls; inst_pointer := None |}]> (heap w))
          (S o) w, Ok o).

(** [self._pointer = c] *)
Definition setattr_pointer (self : nat) (c : cdata) : M unit :=
  λ w, match heap w !! self with
       | Some i =>
           (set_heap (<[self := {| inst_class := inst_class i;
                                   inst_pointer := Some c |}]> (heap w))
              (next_obj w) w, Ok ())
       | None => (w, Raise (OtherError "AttributeError"))
       end.

(** [self._pointer] *)
Definition getattr_pointer (self : nat) : M pointer :=
  λ w, match heap w !! self with
       | Some {| inst_pointer := Some c |} => (w, Ok (cd_addr c))
       | _ => (w, Raise (OtherError "AttributeError"))
       end.

(** The wrapper is reclaimed, and with it the cdata it holds. *)
Definition dealloc (self : nat) : M unit :=
  λ w, match heap w !! self with
       | Some i =>
           let w' := set_heap (delete self (heap w)) (next_obj w) w in
           match inst_pointer i with
           | Some c => collect c w'
           | None => (w', Ok ())
           end
       | None => (w, Ok ())
       end.

End Primitives.

(** ** [surfaces.py] *)

Section Surfaces.

Context {L : CairoLib} {PyState : Type}.
Local Abbreviation World := (World L PyState).
Local Abbreviation M := (M L PyState).

Definition len (s : bytes) : Z := Z.of_nat (length s).

(** Bytes of raw memory from [a] on. *)
Definition load (a : pointer) (n : Z) (m : gmap Z Byte.byte) : bytes :=
  (λ i, default Byte.x00 (m !! (a + i))) <$> seqZ 0 n.

Fixpoint store (a : pointer) (bs : bytes) (m : gmap Z Byte.byte)
    : gmap Z Byte.byte :=
  match bs with
  | [] => m
  | b :: bs' => store (a + 1) bs' (<[a := b]> m)
  end.

(** Reading [ffi.buffer(data, size)]. *)
Definition ffi_buffer (data : pointer) (size : Z) : M bytes :=
  λ w, (w, Ok (load data size (memory w))).

(** [ffi.buffer(data, size)[:stop] = value] for [0 <= stop]: the slice is
    clipped to the buffer and the right operand must have its length. *)
Definition buffer_setslice (data : pointer) (size stop : Z) (value : bytes)
    : M unit :=
  if decide (len value = Z.min stop size)
  then λ w, (set_memory (store data value (memory w)) w, Ok ())
  else raise (ValueError "right operand length must match slice length").

(** A file-like object: its methods act on the caller's state. *)
Record file_obj := {
  file_read : Z → PyState → PyState * result bytes;
  file_write : bytes → PyState → PyState * result unit;
}.

Definition method_call {A} (f : PyState → PyState * result A) : M A :=
  λ w, (set_py (f (py w)).1 w, (f (py w)).2).

Definition _make_read_func (file_obj : file_obj)
    : pointer → pointer → Z → M status :=
  λ closure data length,
    ffi_callback READ_ERROR
      (string ← method_call (file_read file_obj length);
       if decide (len string < length) then mret READ_ERROR
       else
         buffer_setslice data length (len string) string;;
         mret SUCCESS).

(** [None] stands for [ffi.NULL]. *)
Definition _make_write_func (file_obj : option file_obj)
    : option (pointer → pointer → Z → M status) :=
  match file_obj with
  | None => None
  | Some file_obj =>
      Some (λ _closure data length,
              ffi_callback WRITE_ERROR
                (buf ← ffi_buffer data length;
                 method_call (file_write file_obj buf);;
                 mret SUCCESS))
  end.

Definition from_buffer (obj : buffer_obj) : Z * Z :=
  match obj with
  | ArrayArray address length itemsize => (address, length * itemsize)
  | OtherBuffer address len _ => (address, len)
  end.

(** *** class KeepAlive *)

Definition KeepAlive_init (objects : list pyobj) : M KeepAlive :=
  λ w, let o := next_obj w in
       (set_heap (heap w) (S o) w,
        Ok {| ka_id := o; ka_objects := objects; ka_closure := (o, o) |}).

Definition KeepAlive_save (self : KeepAlive) : M unit :=
  λ w, (set_instances ({[ka_id self]} ∪ instances w) w, Ok ()).

(** [self.instances.remove(self)] *)
Definition instances_remove (self : nat) : M unit :=
  λ w, if decide (self ∈ instances w)
       then (set_instances (instances w ∖ {[self]}) w, Ok ())
       else (w, Raise KeyError).

(** The [cairo_destroy_func_t] callback of the [KeepAlive] [self], as the
    foreign side invokes it. *)
Definition KeepAlive_callback (self : nat) : M unit :=
  ffi_callback () (instances_remove self).

(** *** class Surface *)

Definition Surface_check_status (self : nat) : M unit :=
  p ← getattr_pointer self;
  st ← cairo_surface_status p;
  _check_status st.

Definition Surface_init (self : nat) (pointer : pointer)
    (target_keep_alive : pyobj) : M unit :=
  c ← ffi_gc pointer surface_destroy;
  setattr_pointer self c;;
  Surface_check_status self;;
  if decide (target_keep_alive ∉ [PyNone; FfiNULL]) then
    keep_alive ← KeepAlive_init [target_keep_alive];
    p ← getattr_pointer self;
    st ← cairo_surface_set_user_data p (ka_closure keep_alive).1;
    _check_status st;;
    KeepAlive_save keep_alive
  else mret ().

Definition set_mime_data (self : nat) (mime_type : string)
    (data : option bytes) : M unit :=
  match data with
  | None =>
      p ← getattr_pointer self;
      st ← cairo_surface_set_mime_data p mime_type None None;
      _check_status st
  | Some data =>
      keep_alive ← KeepAlive_init
        [PyCData data; PyCData (String.list_byte_of_string mime_type)];
      p ← getattr_pointer self;
      st ← cairo_surface_set_mime_data p mime_type (Some data)
             (Some (ka_closure keep_alive).1);
      _check_status st;;
      KeepAlive_save keep_alive
  end.

(** The pass-through methods: one foreign call, then the status check. *)
Definition Surface_passthrough (name : string) (self : nat) : M unit :=
  p ← getattr_pointer self;
  cairo_surface_method name p;;
  Surface_check_status self.

Definition mark_dirty := Surface_passthrough "cairo_surface_mark_dirty".
Definition show_page := Surface_passthrough "cairo_surface_show_page".
Definition copy_page := Surface_passthrough "cairo_surface_copy_page".
Definition flush := Surface_passthrough "cairo_surface_flush".
Definition finish := Surface_passthrough "cairo_surface_finish".

(** *** class ImageSurface *)

Definition format_stride_for_width (format : string) (width : Z) : M Z :=
  cairo_format_stride_for_width format width.

Definition ImageSurface_init (self : nat) (format : string) (width height : Z)
    (data : option buffer_obj) (stride : option Z) : M unit :=
  pointer ←
    match data with
    | None => cairo_image_surface_create format width height
    | Some data =>
        stride ← match stride with
                 | None => format_stride_for_width format width
                 | Some stride => mret stride
                 end;
        let '(address, length) := from_buffer data in
        if decide (length < stride * height) then
          raise (ValueError ("Got a " +:+ pretty length
                   +:+ " bytes buffer, needs at least "
                   +:+ pretty (stride * height) +:+ "."))
        else
          cairo_image_surface_create_for_data address format width height
            stride
    end;
  Surface_init self pointer
    match data with None => PyNone | Some data => PyBuffer data end.

(** [cls(args)]: allocate, then run [__init__]. *)
Definition construct (cls : class) (init : nat → M unit) : M nat :=
  self ← object_new cls;
  init self;;
  mret self.

Definition SURFACE_TYPE_TO_CLASS : gmap string class :=
  list_to_map [
    ("IMAGE", ImageSurface);
    ("PDF", PDFSurface);
    ("SVG", SVGSurface);
    ("RECORDING", RecordingSurface)
  ].

Definition Surface_from_pointer (pointer : pointer) (incref : bool) : M nat :=
  if decide (pointer = NULL) then raise (ValueError "Null pointer")
  else
    (if incref then cairo_surface_reference pointer else mret ());;
    tag ← cairo_surface_get_type pointer;
    self ← object_new (default Surface (SURFACE_TYPE_TO_CLASS !! tag));
    Surface_init self pointer PyNone;;
    mret self.

End Surfaces.

(** ** [patterns.py] *)

Section Patterns.

Context {L : CairoLib} {PyState : Type}.
Local Abbreviation M := (M L PyState).

Definition Pattern_check_status (self : nat) : M unit :=
  p ← getattr_pointer self;
  st ← cairo_pattern_status p;
  _check_status st.

Definition Pattern_init (self : nat) (pointer : pointer) : M unit :=
  c ← ffi_gc pointer pattern_destroy;
  setattr_pointer self c;;
  Pattern_check_status self.

Definition set_extend (self : nat) (extend : string) : M unit :=
  p ← getattr_pointer self;
  cairo_pattern_method "cairo_pattern_set_extend" p extend;;
  Pattern_check_status self.

Definition set_filter (self : nat) (filter : string) : M unit :=
  p ← getattr_pointer self;
  cairo_pattern_method "cairo_pattern_set_filter" p filter;;
  Pattern_check_status self.

Definition PATTERN_TYPE_TO_CLASS : gmap string class :=
  list_to_map [
    ("SOLID", SolidPattern);
    ("SURFACE", SurfacePattern);
    ("LINEAR", LinearGradient);
    ("RADIAL", RadialGradient)
  ].

Definition Pattern_from_pointer (pointer : pointer) (incref : bool) : M nat :=
  if decide (pointer = NULL) then raise (ValueError "Null pointer")
  else
    (if incref then cairo_pattern_reference pointer else mret ());;
    tag ← cairo_pattern_get_type pointer;
    self ← object_new (default Pattern (PATTERN_TYPE_TO_CLASS !! tag));
    Pattern_init self pointer;;
    mret self.

End Patterns.

(** ** Sequences of operations on one wrapper *)

Section Operations.

Context {L : CairoLib} {PyState : Type}.
Local Abbreviation World := (World L PyState).
Local Abbreviation M := (M L PyState).

Inductive surface_op :=
| op_check_status
| op_mark_dirty
| op_show_page
| op_copy_page
| op_flush
| op_finish
| op_set_mime_data (mime_type : string) (data : option bytes).

Definition surface_call (self : nat) (o : surface_op) : M unit :=
  match o with
  | op_check_status => Surface_check_status self
  | op_mark_dirty => mark_dirty self
  | op_show_page => show_page self
  | op_copy_page => copy_page self
  | op_flush => flush self
  | op_finish => finish self
  | op_set_mime_data mime_type data => set_mime_data self mime_type data
  end.

Inductive pattern_op :=
| op_pattern_check_status
| op_set_extend (extend : string)
| op_set_filter (filter : string).

Definition pattern_call (self : nat) (o : pattern_op) : M unit :=
  match o with
  | op_pattern_check_status => Pattern_check_status self
  | op_set_extend extend => set_extend self extend
  | op_set_filter filter => set_filter self filter
  end.

(** The caller goes on after an operation, whether it raised or not. *)
Definition surface_calls (self : nat) (ops : list surface_op) (w : World)
    : World :=
  foldl (λ w o, exec (surface_call self o) w) w ops.

Definition pattern_calls (self : nat) (ops : list pattern_op) (w : World)
    : World :=
  foldl (λ w o, exec (pattern_call self o) w) w ops.

(** The release call a destructor issues, and how often a log has it. *)
Definition release_call (d : destructor) (p : pointer) : call :=
  match d with
  | surface_destroy => call_surface_destroy p
  | pattern_destroy => call_pattern_destroy p
  end.

Definition releases (d : destructor) (p : pointer) (t : list call) : nat :=
  length (filter (λ c, c = release_call d p) t).

(** Every operation of the embedding, as one step of a program using the
    two modules; [act_release] is the foreign side invoking the destroy
    callback of a [KeepAlive]. *)
Inductive action :=
| act_surface (cls : class) (pointer : pointer) (target_keep_alive : pyobj)
| act_image_surface (format : string) (width height : Z)
    (data : option buffer_obj) (stride : option Z)
| act_surface_from_pointer (pointer : pointer) (incref : bool)
| act_surface_call (self : nat) (o : surface_op)
| act_pattern (cls : class) (pointer : pointer)
| act_pattern_from_pointer (pointer : pointer) (incref : bool)
| act_pattern_call (self : nat) (o : pattern_op)
| act_dealloc (self : nat)
| act_keep_alive (objects : list pyobj)
| act_save (self : KeepAlive)
| act_release (self : nat)
| act_read_func (f : file_obj (PyState := PyState)) (data : pointer) (length : Z)
| act_write_func (f : file_obj (PyState := PyState)) (data : pointer)
    (length : Z).

Definition void {A} (m : M A) : M unit := m ;; mret ().

Definition perform (a : action) : M unit :=
  match a with
  | act_surface cls p tka =>
      void (construct cls (λ self, Surface_init self p tka))
  | act_image_surface format width height data stride =>
      void (construct ImageSurface
              (λ self, ImageSurface_init self format width height data stride))
  | act_surface_from_pointer p incref => void (Surface_from_pointer p incref)
  | act_surface_call self o => surface_call self o
  | act_pattern cls p => void (construct cls (λ self, Pattern_init self p))
  | act_pattern_from_pointer p incref => void (Pattern_from_pointer p incref)
  | act_pattern_call self o => pattern_call self o
  | act_dealloc self => dealloc self
  | act_keep_alive objects => void (KeepAlive_init objects)
  | act_save self => KeepAlive_save self
  | act_release self => KeepAlive_callback self
  | act_read_func f data length =>
      void (_make_read_func f NULL data length)
  | act_write_func f data length =>
      match _make_write_func (Some f) with
      | Some write_func => void (write_func NULL data length)
      | None => mret ()
      end
  end.

End Operations.

(** ** Entry points beyond the core *)

(** The backends whose surfaces stream their output. *)
Inductive backend := PDF | PS | SVG.

(** What a caller passes as the target of a streamed surface, or as a file
    name: text or bytes. *)
Inductive filename :=
| FileBytes (b : bytes)
| FileText (s : string).

(** The entry points the rest of the two modules use.  [double] is the
    library's number type; the wrappers pass such values through. *)
Record CairoMore (L : CairoLib) := {
  double : Type;
  lib_surface_create_for_stream :
    backend → cairo_state L → option nat → double → double →
    cairo_state L * pointer;
  lib_surface_create :
    backend → cairo_state L → bytes → double → double →
    cairo_state L * pointer;
  lib_pattern_get_surface : cairo_state L → pointer → status * pointer;
  lib_pattern_get_color_stop_count : cairo_state L → pointer → status * Z;
  lib_pattern_get_color_stop_rgba :
    cairo_state L → pointer → Z →
    status * (double * double * double * double * double);
}.

Arguments double {L} _.
Arguments lib_surface_create_for_stream {L} _ _ _ _ _ _.
Arguments lib_surface_create {L} _ _ _ _ _ _.
Arguments lib_pattern_get_surface {L} _ _ _.
Arguments lib_pattern_get_color_stop_count {L} _ _ _.
Arguments lib_pattern_get_color_stop_rgba {L} _ _ _ _.

Section More.

Context {L : CairoLib} {PyState : Type} (X : CairoMore L).
Local Abbreviation World := (World L PyState).
Local Abbreviation M := (M L PyState).

(** The target of [PDFSurface], [PSSurface] and [SVGSurface]: [None], an
    object with a [write] method, or a file name. *)
Inductive target :=
| TargetNone
| TargetFile (f : file_obj (PyState := PyState))
| TargetFilename (name : filename).

Definition backend_name (b : backend) : string :=
  match b with PDF => "pdf" | PS => "ps" | SVG => "svg" end.

(** The calls of this section are logged by name, with the handle they
    are made on; a constructor with the handle it returns. *)
Definition cairo_surface_create_for_stream (b : backend)
    (write_func : option nat) (width_in_points height_in_points : double X)
    : M pointer :=
  λ w, let r := lib_surface_create_for_stream X b (foreign w) write_func
                  width_in_points height_in_points in
       (set_foreign r.1
          (call_surface_method
             ("cairo_" +:+ backend_name b +:+ "_surface_create_for_stream")
             r.2) w,
        Ok r.2).

Definition cairo_surface_create (b : backend) (name : bytes)
    (width_in_points height_in_points : double X) : M pointer :=
  λ w, let r := lib_surface_create X b (foreign w) name width_in_points
                  height_in_points in
       (set_foreign r.1
          (call_surface_method
             ("cairo_" +:+ backend_name b +:+ "_surface_create") r.2) w,
        Ok r.2).

Definition cairo_pattern_get_surface (p : pointer) : M (status * pointer) :=
  query (call_pattern_method "cairo_pattern_get_surface" p "")
    (λ s, lib_pattern_get_surface X s p).

Definition cairo_pattern_get_color_stop_count (p : pointer) : M (status * Z) :=
  query (call_pattern_method "cairo_pattern_get_color_stop_count" p "")
    (λ s, lib_pattern_get_color_stop_count X s p).

Definition cairo_pattern_get_color_stop_rgba (p : pointer) (i : Z)
    : M (status * (double X * double X * double X * double X * double X)) :=
  query (call_pattern_method "cairo_pattern_get_color_stop_rgba" p (pretty i))
    (λ s, lib_pattern_get_color_stop_rgba X s p i).

(** Text is held in its encoded form. *)
Definition _encode_filename (name : filename) : bytes :=
  match name with
  | FileBytes b => b
  | FileText s => String.list_byte_of_string s
  end.

(** The callback object [_make_write_func] returns, as an object of its
    own identity; [None] stands for [ffi.NULL]. *)
Definition write_callback (file_obj : option (file_obj (PyState := PyState)))
    : M (option nat) :=
  match _make_write_func (L := L) file_obj with
  | Some _ => λ w, (set_heap (heap w) (S (next_obj w)) w, Ok (Some (next_obj w)))
  | None => mret None
  end.

(** [__init__] of [PDFSurface], [PSSurface] and [SVGSurface], which differ
    in the entry points they call. *)
Definition stream_surface_init (b : backend) (self : nat) (target : target)
    (width_in_points height_in_points : double X) : M unit :=
  match target with
  | TargetFilename name =>
      pointer ← cairo_surface_create b (_encode_filename name)
                  width_in_points height_in_points;
      Surface_init self pointer PyNone
  | _ =>
      write_func ← write_callback
                     match target with TargetFile f => Some f | _ => None end;
      pointer ← cairo_surface_create_for_stream b write_func
                  width_in_points height_in_points;
      Surface_init self pointer
        match write_func with Some cb => PyCallback cb | None => FfiNULL end
  end.

Definition PDFSurface_init := stream_surface_init PDF.
Definition PSSurface_init := stream_surface_init PS.
Definition SVGSurface_init := stream_surface_init SVG.

(** [SurfacePattern.get_surface] *)
Definition get_surface (self : nat) : M nat :=
  p ← getattr_pointer self;
  r ← cairo_pattern_get_surface p;
  _check_status r.1;;
  Surface_from_pointer r.2 true.

(** The loop of [Gradient.get_color_stops] over the indices left. *)
Fixpoint get_color_stops_loop (self : nat) (indices : list Z)
    (stops : list (double X * double X * double X * double X * double X))
    : M (list (double X * double X * double X * double X * double X)) :=
  match indices with
  | [] => mret stops
  | i :: indices =>
      p ← getattr_pointer self;
      r ← cairo_pattern_get_color_stop_rgba p i;
      _check_status r.1;;
      get_color_stops_loop self indices (stops ++ [r.2])
  end.

Definition get_color_stops (self : nat)
    : M (list (double X * double X * double X * double X * double X)) :=
  p ← getattr_pointer self;
  r ← cairo_pattern_get_color_stop_count p;
  _check_status r.1;;
  get_color_stops_loop self (seqZ 0 r.2) [].

End More.

(** ** How a computation moves the world *)

Section Relations.

Context {L : CairoLib} {PyState : Type}.
Local Abbreviation World := (World L PyState).
Local Abbreviation M := (M L PyState).

(** Every run of [m] relates the world before to the world after. *)
Definition steps_in (R : relation World) {A} (m : M A) : Prop :=
  ∀ w, R w (m w).1.

(** Nothing is pinned and nothing is unpinned. *)
Definition same_registry (w w' : World) : Prop :=
  instances w' = instances w.

(** Nothing is unpinned. *)
Definition registry_grows (w w' : World) : Prop :=
  instances w ⊆ instances w'.

(** No wrapper is created, changed or reclaimed, no finalizer is
    registered or run and no release call is issued. *)
Definition quiet (w w' : World) : Prop :=
  heap w' = heap w ∧ finalizers w' = finalizers w ∧
  ∀ d p, releases d p (trace w') = releases d p (trace w).

(** The wrapper [self] holds the cdata [c], whose finalizer is registered
    with destructor [d]. *)
Definition owns (self : nat) (c : cdata) (d : destructor) (w : World) : Prop :=
  (∃ cls, heap w !! self
          = Some {| inst_class := cls; inst_pointer := Some c |}) ∧
  finalizers w !! cd_id c = Some (cd_addr c, d).

(** A run that raises leaves the registry as it was. *)
Definition fail_safe {A} (m : M A) : Prop :=
  ∀ w e, (m w).2 = Raise e → instances (m w).1 = instances w.

End Relations.

(** ** Notions the properties are stated with *)

Section Notions.

Context {L : CairoLib} {PyState : Type}.
Local Abbreviation World := (World L PyState).

(** The world once [__init__] has stored [self._pointer]: the wrapper
    allocated, the finalizer registered, nothing else moved. *)
Definition adopted (cls : class) (p : pointer) (d : destructor) (w : World)
    : World :=
  let o := next_obj w in
  let c := {| cd_id := next_cdata w; cd_addr := p |} in
  set_heap
    (<[o := {| inst_class := cls; inst_pointer := Some c |}]>
       (<[o := {| inst_class := cls; inst_pointer := None |}]> (heap w)))
    (S o)
    (set_finalizers (<[next_cdata w := (p, d)]> (finalizers w))
       (S (next_cdata w)) w).

(** The library's state when the type tag and the status are queried. *)
Definition referenced_surface (incref : bool) (p : pointer) (w : World)
    : cairo_state L :=
  if incref then lib_surface_reference L (foreign w) p else foreign w.

Definition referenced_pattern (incref : bool) (p : pointer) (w : World)
    : cairo_state L :=
  if incref then lib_pattern_reference L (foreign w) p else foreign w.

(** The class of the wrapper [self], if there is one. *)
Definition class_of (self : nat) (w : World) : option class :=
  inst_class <$> heap w !! self.

(** The world when the wrapper is allocated: the reference taken if asked
    for, the type tag queried. *)
Definition tagged_surface (incref : bool) (p : pointer) (w : World) : World :=
  set_foreign (referenced_surface incref p w) (call_surface_get_type p)
    (if incref
     then set_foreign (referenced_surface incref p w)
            (call_surface_reference p) w
     else w).

Definition tagged_pattern (incref : bool) (p : pointer) (w : World) : World :=
  set_foreign (referenced_pattern incref p w) (call_pattern_get_type p)
    (if incref
     then set_foreign (referenced_pattern incref p w)
            (call_pattern_reference p) w
     else w).

End Notions.

(** The world once [__init__] has stored [self._pointer] in the wrapper
    [self] of class [cls]. *)
Definition with_pointer {L : CairoLib} {PyState : Type} (self : nat)
    (cls : class) (p : pointer) (d : destructor) (w : World L PyState)
    : World L PyState :=
  set_heap
    (<[self := {| inst_class := cls;
                  inst_pointer := Some {| cd_id := next_cdata w;
                                          cd_addr := p |} |}]> (heap w))
    (next_obj w)
    (set_finalizers (<[next_cdata w := (p, d)]> (finalizers w))
       (S (next_cdata w)) w).

(** [object.__new__(cls)], as a step on worlds. *)
Definition allocated {L : CairoLib} {PyState : Type} (cls : class)
    (w : World L PyState) : World L PyState :=
  set_heap (<[next_obj w := {| inst_class := cls; inst_pointer := None |}]>
              (heap w))
    (S (next_obj w)) w.

(** The actions run one after the other, the caller going on after an
    action that raised. *)
Definition perform_all {L : CairoLib} {PyState : Type} (l : list action)
    (w : World L PyState) : World L PyState :=
  foldl (λ w a, exec (perform a) w) w l.






(** ** A small foreign library to run the embedding on *)

(** Per handle: its type tag, its status and whether it was finished. *)
Record demo_object := {
  demo_type : string;
  demo_status : status;
  demo_finished : bool;
}.

Definition demo_state := gmap Z demo_object.

Definition demo_status_of (s : demo_state) (p : pointer) : status :=
  match s !! p with
  | Some o => demo_status o
  | None => "NULL_POINTER"
  end.

Definition demo_type_of (s : demo_state) (p : pointer) : string :=
  match s !! p with
  | Some o => demo_type o
  | None => ""
  end.

Definition demo_attach (s : demo_state) (p : pointer) : status :=
  match s !! p with
  | Some o => if demo_finished o then "SURFACE_FINISHED" else demo_status o
  | None => "NULL_POINTER"
  end.

Definition demo_method (name : string) (s : demo_state) (p : pointer)
    : demo_state :=
  if decide (name = "cairo_surface_finish")
  then alter (λ o, {| demo_type := demo_type o; demo_status := demo_status o;
                      demo_finished := true |}) p s
  else s.

Definition demo_create (s : demo_state) (format : string) (width height : Z)
    : demo_state * pointer :=
  let p := 4096 + Z.of_nat (size s) in
  (<[p := {| demo_type := "IMAGE";
             demo_status := if decide (0 ≤ width ∧ 0 ≤ height) then SUCCESS
                            else "INVALID_SIZE";
             demo_finished := false |}]> s, p).

Definition demo_cairo : CairoLib := {|
  cairo_state := demo_state;
  lib_surface_status := demo_status_of;
  lib_pattern_status := demo_status_of;
  lib_surface_get_type := demo_type_of;
  lib_pattern_get_type := demo_type_of;
  lib_surface_reference := λ s _, s;
  lib_pattern_reference := λ s _, s;
  lib_surface_destroy := λ s _, s;
  lib_pattern_destroy := λ s _, s;
  lib_surface_set_user_data := λ s p _, (s, demo_attach s p);
  lib_surface_set_mime_data := λ s p _ _ _, (s, demo_attach s p);
  lib_surface_method := demo_method;
  lib_pattern_method := λ _ s _ _, s;
  lib_format_stride_for_width :=
    λ format width, if decide (format = "ARGB32") then 4 * width else -1;
  lib_image_surface_create := demo_create;
  lib_image_surface_create_for_data :=
    λ s _ format width height _, demo_create s format width height;
|}.

Definition demo_handle (type : string) (st : status) : demo_object :=
  {| demo_type := type; demo_status := st; demo_finished := false |}.

(** Handles of every surface and pattern kind, one unknown to the binding
    (XLIB), one in an error state and one already finished. *)
Definition demo_handles : demo_state :=
  list_to_map [
    (1, demo_handle "IMAGE" SUCCESS);
    (2, demo_handle "PDF" SUCCESS);
    (3, demo_handle "PS" SUCCESS);
    (4, demo_handle "SVG" SUCCESS);
    (5, demo_handle "RECORDING" SUCCESS);
    (6, demo_handle "XLIB" SUCCESS);
    (7, demo_handle "SOLID" SUCCESS);
    (8, demo_handle "SURFACE" SUCCESS);
    (9, demo_handle "LINEAR" SUCCESS);
    (10, demo_handle "RADIAL" SUCCESS);
    (11, demo_handle "MESH" SUCCESS);
    (12, demo_handle "IMAGE" "NO_MEMORY");
    (13, {| demo_type := "PDF"; demo_status := SUCCESS;
            demo_finished := true |});
    (14, demo_handle "SOLID" "NO_MEMORY")
  ].

Definition demo_world {PyState} (s : PyState) : World demo_cairo PyState :=
  {| foreign := (demo_handles : cairo_state demo_cairo); trace := [];
     finalizers := ∅; next_cdata := 0; heap := ∅; next_obj := 0;
     instances := ∅; memory := ∅; py := s |}.

(** The further entry points of the small library: streamed surfaces are
    new handles of the backend's type; handle 8 is a pattern over the
    surface 1; the gradient 9 has two color stops, the gradient 10 three,
    of which the second cannot be read. *)
Definition demo_stream (b : backend) (s : demo_state) : demo_state * pointer :=
  let p := 4096 + Z.of_nat (size s) in
  (<[p := demo_handle match b with PDF => "PDF" | PS => "PS" | SVG => "SVG" end
            SUCCESS]> s, p).

Definition demo_more : CairoMore demo_cairo := {|
  double := Z;
  lib_surface_create_for_stream :=
    λ b (s : cairo_state demo_cairo) _ _ _, demo_stream b s;
  lib_surface_create := λ b (s : cairo_state demo_cairo) _ _ _, demo_stream b s;
  lib_pattern_get_surface := λ s p,
    if decide (p = 8) then (SUCCESS, 1) else ("PATTERN_TYPE_MISMATCH", NULL);
  lib_pattern_get_color_stop_count := λ s p,
    if decide (p = 9) then (SUCCESS, 2)
    else if decide (p = 10) then (SUCCESS, 3)
    else ("PATTERN_TYPE_MISMATCH", 0);
  lib_pattern_get_color_stop_rgba := λ s p i,
    if decide (p = 10 ∧ i = 1) then ("INVALID_INDEX", (0, 0, 0, 0, 0))
    else (SUCCESS, (i, 10 * i, 20 * i, 30 * i, 1));
|}.

(** An in-memory stream: what is left to read and what was written. *)
Record stream := {
  unread : bytes;
  written : bytes;
}.

(** [io.BytesIO]: [read(n)] hands out up to [n] bytes, [write] appends. *)
Definition BytesIO : file_obj (PyState := stream) := {|
  file_read := λ n s,
    ({| unread := drop (Z.to_nat n) (unread s); written := written s |},
     Ok (take (Z.to_nat n) (unread s)));
  file_write := λ b s,
    ({| unread := unread s; written := (written s ++ b)%list |}, Ok ());
|}.

(** A file object whose methods raise. *)
Definition broken_file : file_obj (PyState := stream) := {|
  file_read := λ _ s, (s, Raise (OtherError "IOError"));
  file_write := λ _ s, (s, Raise (OtherError "IOError"));
|}.

(** * Properties *)

Section Steps.

Context {L : CairoLib} {PyState : Type}.
Local Abbreviation World := (World L PyState).
Local Abbreviation M := (M L PyState).

Context (R : relation World) `{!PreOrder R}.

Lemma steps_in_ret {A} (a : A) : steps_in R (mret a : M A).
Proof. intros w. reflexivity. Qed.

Lemma steps_in_raise {A} e : steps_in R (raise e : M A).
Proof. intros w. reflexivity. Qed.

Lemma steps_in_bind {A B} (m : M A) (k : A → M B) :
  steps_in R m → (∀ a, steps_in R (k a)) → steps_in R (m ≫= k).
Proof.
  intros Hm Hk w. unfold mbind, M_bind, bind.
  specialize (Hm w). destruct (m w) as [w' [a|e]]; simpl in *.
  - etransitivity; [exact Hm|apply Hk].
  - exact Hm.
Qed.

Lemma steps_in_callback {A} (error : A) (m : M A) :
  steps_in R m → steps_in R (ffi_callback error m).
Proof.
  intros Hm w. unfold ffi_callback. specialize (Hm w).
  destruct (m w) as [w' [a|e]]; exact Hm.
Qed.

Lemma steps_in_if {A} (P : Prop) `{!Decision P} (m1 m2 : M A) :
  steps_in R m1 → steps_in R m2 → steps_in R (if decide P then m1 else m2).
Proof. intros. by case_decide. Qed.

Lemma steps_in_foldl {A} (f : A → M unit) (l : list A) (w : World) :
  (∀ a, steps_in R (f a)) → R w (foldl (λ w a, exec (f a) w) w l).
Proof.
  intros Hf. revert w. induction l as [|a l IH]; intros w; simpl.
  - reflexivity.
  - etransitivity; [apply (Hf a)|apply IH].
Qed.

End Steps.

Create HintDb steps discriminated.

Global Hint Resolve steps_in_ret steps_in_raise steps_in_bind
  steps_in_callback steps_in_if : steps.

Section Registry.

Context {L : CairoLib} {PyState : Type}.
Local Abbreviation World := (World L PyState).
Local Abbreviation M := (M L PyState).

Global Instance same_registry_preorder : PreOrder (@same_registry L PyState).
Proof.
  split; [intros w; reflexivity|].
  intros w1 w2 w3 H1 H2. unfold same_registry in *. congruence.
Qed.

Global Instance registry_grows_preorder
  : PreOrder (@registry_grows L PyState).
Proof.
  split; [intros w; unfold registry_grows; set_solver|].
  intros w1 w2 w3 H1 H2. unfold registry_grows in *. set_solver.
Qed.

Global Instance quiet_preorder : PreOrder (@quiet L PyState).
Proof.
  split; [intros w; repeat split; reflexivity|].
  intros w1 w2 w3 (H1 & H2 & H3) (H4 & H5 & H6).
  split; [congruence|split; [congruence|]].
  intros d p. by rewrite H6.
Qed.

Lemma same_registry_grows {A} (m : M A) :
  steps_in same_registry m → steps_in registry_grows m.
Proof. intros H w. unfold registry_grows. rewrite (H w). set_solver. Qed.

Lemma same_registry_fail_safe {A} (m : M A) :
  steps_in same_registry m → fail_safe m.
Proof. intros H w e _. apply H. Qed.

(** *** Primitives that leave the registry alone *)

Lemma query_same {A} c (f : cairo_state L → A) :
  steps_in same_registry (query c f : M A).
Proof. by intros w. Qed.

Lemma command_same c f : steps_in same_registry (command c f : M unit).
Proof. by intros w. Qed.

Lemma request_same {A} c (f : cairo_state L → cairo_state L * A) :
  steps_in same_registry (request c f : M A).
Proof. by intros w. Qed.

Lemma ffi_gc_same p d : steps_in same_registry (ffi_gc p d : M cdata).
Proof. by intros w. Qed.

Lemma run_destructor_same d p :
  steps_in same_registry (run_destructor d p : M unit).
Proof. destruct d; apply command_same. Qed.

Lemma collect_same c : steps_in same_registry (collect c : M unit).
Proof.
  intros w. unfold collect.
  destruct (finalizers w !! cd_id c) as [[p d]|]; [|done].
  etransitivity; [|apply (run_destructor_same d p)]. done.
Qed.

Lemma check_status_same st : steps_in same_registry (_check_status st : M unit).
Proof. intros w. unfold _check_status. by case_decide. Qed.

Lemma object_new_same cls : steps_in same_registry (object_new cls : M nat).
Proof. by intros w. Qed.

Lemma setattr_pointer_same self c :
  steps_in same_registry (setattr_pointer self c : M unit).
Proof. intros w. unfold setattr_pointer. by destruct (heap w !! self). Qed.

Lemma getattr_pointer_same self :
  steps_in same_registry (getattr_pointer self : M pointer).
Proof.
  intros w. unfold getattr_pointer.
  by destruct (heap w !! self) as [[cls [c|]]|].
Qed.

Lemma dealloc_same self : steps_in same_registry (dealloc self : M unit).
Proof.
  intros w. unfold dealloc.
  destruct (heap w !! self) as [[cls [c|]]|]; simpl; [|done..].
  etransitivity; [|apply (collect_same c)]. done.
Qed.

Lemma KeepAlive_init_same objects :
  steps_in same_registry (KeepAlive_init objects : M KeepAlive).
Proof. by intros w. Qed.

Lemma method_call_same {A} (f : PyState → PyState * result A) :
  steps_in same_registry (method_call f : M A).
Proof. by intros w. Qed.

Lemma ffi_buffer_same data size :
  steps_in same_registry (ffi_buffer data size : M bytes).
Proof. by intros w. Qed.

Lemma buffer_setslice_same data size stop value :
  steps_in same_registry (buffer_setslice data size stop value : M unit).
Proof. intros w. unfold buffer_setslice. by case_decide. Qed.

End Registry.

Global Hint Resolve query_same command_same request_same ffi_gc_same
  run_destructor_same collect_same check_status_same object_new_same
  setattr_pointer_same getattr_pointer_same dealloc_same KeepAlive_init_same
  method_call_same ffi_buffer_same buffer_setslice_same : steps.

Global Hint Extern 1 (PreOrder _) => apply _ : steps.

Ltac steps :=
  repeat first
    [ solve [eauto 3 with steps typeclass_instances]
    | apply steps_in_bind; [tc_solve| |intros ?]
    | apply steps_in_if
    | apply steps_in_callback ].

Section RegistrySafety.

Context {L : CairoLib} {PyState : Type}.
Local Abbreviation World := (World L PyState).
Local Abbreviation M := (M L PyState).

Lemma Surface_check_status_same self :
  steps_in same_registry (Surface_check_status self : M unit).
Proof. unfold Surface_check_status. steps. Qed.

Lemma Pattern_check_status_same self :
  steps_in same_registry (Pattern_check_status self : M unit).
Proof. unfold Pattern_check_status. steps. Qed.

Lemma Surface_passthrough_same name self :
  steps_in same_registry (Surface_passthrough name self : M unit).
Proof.
  unfold Surface_passthrough, cairo_surface_method.
  pose proof Surface_check_status_same. steps.
Qed.

Lemma Pattern_init_same self p :
  steps_in same_registry (Pattern_init self p : M unit).
Proof. unfold Pattern_init. pose proof Pattern_check_status_same. steps. Qed.

Lemma fail_safe_bind {A B} (m : M A) (k : A → M B) :
  steps_in same_registry m → (∀ a, fail_safe (k a)) → fail_safe (m ≫= k).
Proof.
  intros Hm Hk w e. unfold mbind, M_bind, bind.
  specialize (Hm w). destruct (m w) as [w' [a|e']]; simpl in *.
  - intros Hr. rewrite (Hk a w' e Hr). exact Hm.
  - intros _. exact Hm.
Qed.

Lemma fail_safe_if {A} (P : Prop) `{!Decision P} (m1 m2 : M A) :
  fail_safe m1 → fail_safe m2 → fail_safe (if decide P then m1 else m2).
Proof. intros. by case_decide. Qed.

Lemma KeepAlive_save_fail_safe self : fail_safe (KeepAlive_save self : M unit).
Proof. intros w e Hr. discriminate Hr. Qed.

Lemma Surface_init_fail_safe self p tka :
  fail_safe (Surface_init self p tka : M unit).
Proof.
  unfold Surface_init.
  apply fail_safe_bind; [steps|intros c].
  apply fail_safe_bind; [steps|intros _].
  apply fail_safe_bind; [apply Surface_check_status_same|intros _].
  apply fail_safe_if; [|apply same_registry_fail_safe; steps].
  apply fail_safe_bind; [steps|intros ka].
  apply fail_safe_bind; [steps|intros q].
  apply fail_safe_bind; [unfold cairo_surface_set_user_data; steps|intros st].
  apply fail_safe_bind; [steps|intros _].
  apply KeepAlive_save_fail_safe.
Qed.



Lemma construct_fail_safe cls (init : nat → M unit) :
  (∀ self, fail_safe (init self)) → fail_safe (construct cls init).
Proof.
  intros Hinit. unfold construct.
  apply fail_safe_bind; [steps|intros self].
  intros w e. unfold mbind, M_bind, bind.
  specialize (Hinit self w). destruct (init self w) as [w' [[]|e']]; simpl in *.
  - discriminate.
  - intros _. by apply (Hinit e').
Qed.

End RegistrySafety.

(** ** Ownership of the handle *)

Section Ownership.

Context {L : CairoLib} {PyState : Type}.
Local Abbreviation World := (World L PyState).
Local Abbreviation M := (M L PyState).

Lemma releases_snoc_other d p t c :
  c ≠ release_call d p → releases d p (t ++ [c]) = releases d p t.
Proof.
  intros Hc. unfold releases. rewrite filter_app, length_app.
  rewrite filter_cons_False by done. simpl. lia.
Qed.

Lemma releases_snoc_same d p t :
  releases d p (t ++ [release_call d p]) = S (releases d p t).
Proof.
  unfold releases. rewrite filter_app, length_app.
  rewrite filter_cons_True by done. simpl. lia.
Qed.

Lemma set_foreign_quiet f c (w : World) :
  (∀ d p, c ≠ release_call d p) → quiet w (set_foreign f c w).
Proof.
  intros Hc. split; [done|split; [done|]].
  intros d p. simpl. by apply releases_snoc_other.
Qed.

Lemma query_quiet {A} c (f : cairo_state L → A) :
  (∀ d p, c ≠ release_call d p) → steps_in quiet (query c f : M A).
Proof. intros Hc w. by apply set_foreign_quiet. Qed.

Lemma command_quiet c f :
  (∀ d p, c ≠ release_call d p) → steps_in quiet (command c f : M unit).
Proof. intros Hc w. by apply set_foreign_quiet. Qed.

Lemma request_quiet {A} c (f : cairo_state L → cairo_state L * A) :
  (∀ d p, c ≠ release_call d p) → steps_in quiet (request c f : M A).
Proof. intros Hc w. by apply set_foreign_quiet. Qed.

Lemma check_status_quiet st : steps_in quiet (_check_status st : M unit).
Proof. intros w. unfold _check_status. by case_decide. Qed.

Lemma getattr_pointer_quiet self :
  steps_in quiet (getattr_pointer self : M pointer).
Proof.
  intros w. unfold getattr_pointer.
  by destruct (heap w !! self) as [[cls [c|]]|].
Qed.

Lemma KeepAlive_init_quiet objects :
  steps_in quiet (KeepAlive_init objects : M KeepAlive).
Proof. by intros w. Qed.

Lemma KeepAlive_save_quiet self : steps_in quiet (KeepAlive_save self : M unit).
Proof. by intros w. Qed.

Ltac not_release := intros [] ?; discriminate.

Lemma cairo_surface_status_quiet p :
  steps_in quiet (cairo_surface_status p : M status).
Proof. apply query_quiet. not_release. Qed.

Lemma cairo_pattern_status_quiet p :
  steps_in quiet (cairo_pattern_status p : M status).
Proof. apply query_quiet. not_release. Qed.

Lemma cairo_surface_set_user_data_quiet p cb :
  steps_in quiet (cairo_surface_set_user_data p cb : M status).
Proof. apply request_quiet. not_release. Qed.

Lemma cairo_surface_set_mime_data_quiet p mime data cb :
  steps_in quiet (cairo_surface_set_mime_data p mime data cb : M status).
Proof. apply request_quiet. not_release. Qed.

Lemma cairo_surface_method_quiet name p :
  steps_in quiet (cairo_surface_method name p : M unit).
Proof. apply command_quiet. not_release. Qed.

Lemma cairo_pattern_method_quiet name p arg :
  steps_in quiet (cairo_pattern_method name p arg : M unit).
Proof. apply command_quiet. not_release. Qed.

Local Hint Resolve cairo_surface_status_quiet cairo_pattern_status_quiet
  cairo_surface_set_user_data_quiet cairo_surface_set_mime_data_quiet
  cairo_surface_method_quiet cairo_pattern_method_quiet check_status_quiet
  getattr_pointer_quiet KeepAlive_init_quiet KeepAlive_save_quiet : steps.

Lemma Surface_check_status_quiet self :
  steps_in quiet (Surface_check_status self : M unit).
Proof. unfold Surface_check_status. steps. Qed.

Lemma Pattern_check_status_quiet self :
  steps_in quiet (Pattern_check_status self : M unit).
Proof. unfold Pattern_check_status. steps. Qed.

Local Hint Resolve Surface_check_status_quiet Pattern_check_status_quiet
  : steps.

Lemma surface_call_quiet self o : steps_in quiet (surface_call self o : M unit).
Proof.
  destruct o as [| | | | | |mime_type [data|]]; simpl;
    unfold mark_dirty, show_page, copy_page, flush, finish,
      Surface_passthrough, set_mime_data; steps.
Qed.

Lemma pattern_call_quiet self o : steps_in quiet (pattern_call self o : M unit).
Proof. destruct o; simpl; unfold set_extend, set_filter; steps. Qed.

(** What [Surface.__init__] does after storing [self._pointer]. *)
Lemma Surface_init_rest_quiet self (tka : pyobj) :
  steps_in quiet
    (Surface_check_status self;;
     if decide (tka ∉ [PyNone; FfiNULL]) then
       keep_alive ← KeepAlive_init [tka];
       p ← getattr_pointer self;
       st ← cairo_surface_set_user_data p (ka_closure keep_alive).1;
       _check_status st;;
       KeepAlive_save keep_alive
     else mret () : M unit).
Proof. steps. Qed.

Lemma quiet_owns self c d (w w' : World) :
  quiet w w' → owns self c d w → owns self c d w'.
Proof. intros (Hh & Hf & _) [Ho Hz]. split; by rewrite ?Hh, ?Hf. Qed.

(** Running [m ≫= k] from [w] passes through the world [m] leaves. *)
Lemma steps_after {A B} (R : relation World) (m : M A) (k : A → M B) w :
  Reflexive R → (∀ a, steps_in R (k a)) → R (m w).1 ((m ≫= k) w).1.
Proof.
  intros HR Hk. unfold mbind, M_bind, bind.
  destruct (m w) as [w' [a|e]]; simpl; [apply Hk|apply HR].
Qed.

End Ownership.

Section Construction.

Context {L : CairoLib} {PyState : Type}.
Local Abbreviation World := (World L PyState).
Local Abbreviation M := (M L PyState).

Lemma adopted_owns cls p d (w : World) :
  owns (next_obj w) {| cd_id := next_cdata w; cd_addr := p |} d
    (adopted cls p d w).
Proof.
  split; simpl.
  - exists cls. apply lookup_insert_eq.
  - apply lookup_insert_eq.
Qed.

Lemma construct_Surface_run cls p tka (w : World) :
  construct cls (λ self, Surface_init self p tka) w
  = ((Surface_check_status (next_obj w);;
      if decide (tka ∉ [PyNone; FfiNULL]) then
        keep_alive ← KeepAlive_init [tka];
        q ← getattr_pointer (next_obj w);
        st ← cairo_surface_set_user_data q (ka_closure keep_alive).1;
        _check_status st;;
        KeepAlive_save keep_alive
      else mret ());;
     mret (next_obj w)) (adopted cls p surface_destroy w).
Proof.
  unfold construct, Surface_init, mbind, M_bind, bind, object_new, ffi_gc,
    setattr_pointer. simpl. rewrite lookup_insert_eq. reflexivity.
Qed.

Lemma construct_Pattern_run cls p (w : World) :
  construct cls (λ self, Pattern_init self p) w
  = (Pattern_check_status (next_obj w);; mret (next_obj w))
      (adopted cls p pattern_destroy w).
Proof.
  unfold construct, Pattern_init, mbind, M_bind, bind, object_new, ffi_gc,
    setattr_pointer. simpl. rewrite lookup_insert_eq. reflexivity.
Qed.

End Construction.

Section Teardown.

Context {L : CairoLib} {PyState : Type}.
Local Abbreviation World := (World L PyState).
Local Abbreviation M := (M L PyState).

Lemma construct_Surface_owns cls p tka (w : World) :
  let w1 := exec (construct cls (λ self, Surface_init self p tka)) w in
  owns (next_obj w) {| cd_id := next_cdata w; cd_addr := p |} surface_destroy w1
  ∧ ∀ d q, releases d q (trace w1) = releases d q (trace w).
Proof.
  simpl. unfold exec. rewrite construct_Surface_run.
  match goal with |- context [(?m ≫= ?k) ?w0] =>
    assert (Hq : quiet w0 ((m ≫= k) w0).1) end.
  { apply steps_in_bind; [tc_solve|apply Surface_init_rest_quiet|].
    intros _. apply steps_in_ret. tc_solve. }
  split.
  - eapply quiet_owns; [exact Hq|apply adopted_owns].
  - intros d q. destruct Hq as (_ & _ & Hr). by rewrite Hr.
Qed.

Lemma construct_Pattern_owns cls p (w : World) :
  let w1 := exec (construct cls (λ self, Pattern_init self p)) w in
  owns (next_obj w) {| cd_id := next_cdata w; cd_addr := p |} pattern_destroy w1
  ∧ ∀ d q, releases d q (trace w1) = releases d q (trace w).
Proof.
  simpl. unfold exec. rewrite construct_Pattern_run.
  match goal with |- context [(?m ≫= ?k) ?w0] =>
    assert (Hq : quiet w0 ((m ≫= k) w0).1) end.
  { apply steps_in_bind; [tc_solve|apply Pattern_check_status_quiet|].
    intros _. apply steps_in_ret. tc_solve. }
  split.
  - eapply quiet_owns; [exact Hq|apply adopted_owns].
  - intros d q. destruct Hq as (_ & _ & Hr). by rewrite Hr.
Qed.

Lemma surface_calls_quiet self ops (w : World) :
  quiet w (surface_calls self ops w).
Proof.
  apply (steps_in_foldl quiet (surface_call self)), surface_call_quiet.
Qed.

Lemma pattern_calls_quiet self ops (w : World) :
  quiet w (pattern_calls self ops w).
Proof.
  apply (steps_in_foldl quiet (pattern_call self)), pattern_call_quiet.
Qed.

(** Reclaiming a wrapper that owns its handle issues the one release call
    and leaves nothing behind to release again. *)
Lemma dealloc_owned self c d (w : World) :
  owns self c d w →
  trace (exec (dealloc self) w)
  = (trace w ++ [release_call d (cd_addr c)])%list ∧
  heap (exec (dealloc self) w) !! self = None ∧
  finalizers (exec (dealloc self) w) !! cd_id c = None.
Proof.
  intros [[cls Hh] Hf]. unfold exec, dealloc. rewrite Hh. simpl.
  unfold collect. simpl. rewrite Hf.
  destruct d; simpl; (split; [done|split]);
    [apply lookup_delete_eq|apply lookup_delete_eq
    |apply lookup_delete_eq|apply lookup_delete_eq].
Qed.

Lemma dealloc_absent self (w : World) :
  heap w !! self = None → exec (dealloc self) w = w.
Proof. intros Hh. unfold exec, dealloc. by rewrite Hh. Qed.

End Teardown.

(** ** The claims *)

(** C1. Every wrapper built around a raw handle, of the Surface family
    (through [Surface.__init__]) or of the Pattern family (through
    [Pattern.__init__]), whether its construction succeeded or raised:
    neither its construction nor any sequence of operations on it issues a
    release call; reclaiming it issues exactly one release call, on its
    handle and with its family's destructor; reclaiming has nothing left
    to release afterwards. *)
Theorem C1_exactly_one_release (L : CairoLib) (PyState : Type)
    (w : World L PyState) (cls : class) (p : pointer) :
  (∀ (tka : pyobj) (ops : list surface_op),
     let self := next_obj w in
     let w2 := surface_calls self ops
                 (exec (construct cls (λ self, Surface_init self p tka)) w) in
     let w3 := exec (dealloc self) w2 in
     (∀ d q, releases d q (trace w2) = releases d q (trace w)) ∧
     trace w3 = (trace w2 ++ [call_surface_destroy p])%list ∧
     releases surface_destroy p (trace w3)
       = S (releases surface_destroy p (trace w)) ∧
     exec (dealloc self) w3 = w3) ∧
  (∀ (ops : list pattern_op),
     let self := next_obj w in
     let w2 := pattern_calls self ops
                 (exec (construct cls (λ self, Pattern_init self p)) w) in
     let w3 := exec (dealloc self) w2 in
     (∀ d q, releases d q (trace w2) = releases d q (trace w)) ∧
     trace w3 = (trace w2 ++ [call_pattern_destroy p])%list ∧
     releases pattern_destroy p (trace w3)
       = S (releases pattern_destroy p (trace w)) ∧
     exec (dealloc self) w3 = w3).
Proof.
  split.
  - intros tka ops self w2 w3.
    destruct (construct_Surface_owns cls p tka w) as [Ho Hr].
    pose proof (surface_calls_quiet self ops
      (exec (construct cls (λ self, Surface_init self p tka)) w)) as Hq.
    fold w2 in Hq.
    assert (Hrel : ∀ d q, releases d q (trace w2) = releases d q (trace w)).
    { intros d q. destruct Hq as (_ & _ & Hq). by rewrite Hq, Hr. }
    destruct (dealloc_owned self _ _ w2 (quiet_owns _ _ _ _ _ Hq Ho))
      as (Ht & Hh & _).
    fold w3 in Ht, Hh. simpl in Ht.
    repeat split; [exact Hrel|exact Ht| |by apply dealloc_absent].
    rewrite Ht, <- Hrel. apply (releases_snoc_same surface_destroy).
  - intros ops self w2 w3.
    destruct (construct_Pattern_owns cls p w) as [Ho Hr].
    pose proof (pattern_calls_quiet self ops
      (exec (construct cls (λ self, Pattern_init self p)) w)) as Hq.
    fold w2 in Hq.
    assert (Hrel : ∀ d q, releases d q (trace w2) = releases d q (trace w)).
    { intros d q. destruct Hq as (_ & _ & Hq). by rewrite Hq, Hr. }
    destruct (dealloc_owned self _ _ w2 (quiet_owns _ _ _ _ _ Hq Ho))
      as (Ht & Hh & _).
    fold w3 in Ht, Hh. simpl in Ht.
    repeat split; [exact Hrel|exact Ht| |by apply dealloc_absent].
    rewrite Ht, <- Hrel. apply (releases_snoc_same pattern_destroy).
Qed.

Section FailedConstruction.

Context {L : CairoLib} {PyState : Type}.
Local Abbreviation World := (World L PyState).

Lemma construct_Surface_raises cls p tka (w : World) :
  lib_surface_status L (foreign w) p ≠ SUCCESS →
  construct cls (λ self, Surface_init self p tka) w
  = (set_foreign (foreign w) (call_surface_status p)
       (adopted cls p surface_destroy w),
     Raise (CairoError (lib_surface_status L (foreign w) p))).
Proof.
  intros Hst. rewrite construct_Surface_run.
  unfold Surface_check_status, mbind, M_bind, bind, getattr_pointer,
    cairo_surface_status, query, _check_status. simpl.
  rewrite lookup_insert_eq. simpl. by rewrite decide_False.
Qed.

Lemma construct_Pattern_raises cls p (w : World) :
  lib_pattern_status L (foreign w) p ≠ SUCCESS →
  construct cls (λ self, Pattern_init self p) w
  = (set_foreign (foreign w) (call_pattern_status p)
       (adopted cls p pattern_destroy w),
     Raise (CairoError (lib_pattern_status L (foreign w) p))).
Proof.
  intros Hst. rewrite construct_Pattern_run.
  unfold Pattern_check_status, mbind, M_bind, bind, getattr_pointer,
    cairo_pattern_status, query, _check_status. simpl.
  rewrite lookup_insert_eq. simpl. by rewrite decide_False.
Qed.

End FailedConstruction.

(** C2. When the status query on the handle answers a non-success code,
    construction raises the typed status error carrying that code; the
    failed construction has issued the status query and no release; the
    finalizer was registered before the check, so reclaiming the
    half-built wrapper issues exactly one release call on the handle, and
    nothing is left to release afterwards.  Both families. *)
Theorem C2_failed_construction_releases_once (L : CairoLib) (PyState : Type)
    (w : World L PyState) (cls : class) (p : pointer) (tka : pyobj) :
  (lib_surface_status L (foreign w) p ≠ SUCCESS →
   let m := construct cls (λ self, Surface_init self p tka) in
   let w3 := exec (dealloc (next_obj w)) (exec m w) in
   outcome m w = Raise (CairoError (lib_surface_status L (foreign w) p)) ∧
   trace (exec m w) = (trace w ++ [call_surface_status p])%list ∧
   trace w3 = (trace (exec m w) ++ [call_surface_destroy p])%list ∧
   exec (dealloc (next_obj w)) w3 = w3) ∧
  (lib_pattern_status L (foreign w) p ≠ SUCCESS →
   let m := construct cls (λ self, Pattern_init self p) in
   let w3 := exec (dealloc (next_obj w)) (exec m w) in
   outcome m w = Raise (CairoError (lib_pattern_status L (foreign w) p)) ∧
   trace (exec m w) = (trace w ++ [call_pattern_status p])%list ∧
   trace w3 = (trace (exec m w) ++ [call_pattern_destroy p])%list ∧
   exec (dealloc (next_obj w)) w3 = w3).
Proof.
  split; intros Hst m w3.
  - pose proof (construct_Surface_raises cls p tka w Hst) as Hrun.
    destruct (construct_Surface_owns cls p tka w) as [Ho _].
    destruct (dealloc_owned _ _ _ _ Ho) as (Ht & Hh & _).
    fold m in Hrun, Ht, Hh. fold w3 in Ht, Hh.
    unfold outcome, exec in *. rewrite Hrun in *. simpl in *.
    split; [done|split; [done|split; [exact Ht|by apply dealloc_absent]]].
  - pose proof (construct_Pattern_raises cls p w Hst) as Hrun.
    destruct (construct_Pattern_owns cls p w) as [Ho _].
    destruct (dealloc_owned _ _ _ _ Ho) as (Ht & Hh & _).
    fold m in Hrun, Ht, Hh. fold w3 in Ht, Hh.
    unfold outcome, exec in *. rewrite Hrun in *. simpl in *.
    split; [done|split; [done|split; [exact Ht|by apply dealloc_absent]]].
Qed.

Lemma C2_witness :
  lib_surface_status demo_cairo (foreign (demo_world ())) 12 ≠ SUCCESS ∧
  lib_pattern_status demo_cairo (foreign (demo_world ())) 14 ≠ SUCCESS ∧
  outcome (construct ImageSurface (λ self, Surface_init self 12 PyNone))
    (demo_world ()) = Raise (CairoError "NO_MEMORY") ∧
  outcome (construct SolidPattern (λ self, Pattern_init self 14))
    (demo_world ()) = Raise (CairoError "NO_MEMORY").
Proof.
  assert (H12 : lib_surface_status demo_cairo (foreign (demo_world ())) 12
                ≠ SUCCESS) by (vm_compute; discriminate).
  assert (H14 : lib_pattern_status demo_cairo (foreign (demo_world ())) 14
                ≠ SUCCESS) by (vm_compute; discriminate).
  split; [exact H12|split; [exact H14|split]].
  - exact (proj1 (proj1 (C2_failed_construction_releases_once demo_cairo ()
      (demo_world ()) ImageSurface 12 PyNone) H12)).
  - exact (proj1 (proj2 (C2_failed_construction_releases_once demo_cairo ()
      (demo_world ()) SolidPattern 14 PyNone) H14)).
Defined.

(** ** Re-hydration *)

Section Rehydration.

Context {L : CairoLib} {PyState : Type}.
Local Abbreviation World := (World L PyState).

Lemma Surface_from_pointer_run p incref (w : World) :
  p ≠ NULL →
  Surface_from_pointer p incref w
  = construct
      (default Surface
         (SURFACE_TYPE_TO_CLASS
            !! lib_surface_get_type L (referenced_surface incref p w) p))
      (λ self, Surface_init self p PyNone) (tagged_surface incref p w).
Proof.
  intros Hp. unfold Surface_from_pointer. rewrite decide_False by done.
  by destruct incref.
Qed.

Lemma Pattern_from_pointer_run p incref (w : World) :
  p ≠ NULL →
  Pattern_from_pointer p incref w
  = construct
      (default Pattern
         (PATTERN_TYPE_TO_CLASS
            !! lib_pattern_get_type L (referenced_pattern incref p w) p))
      (λ self, Pattern_init self p) (tagged_pattern incref p w).
Proof.
  intros Hp. unfold Pattern_from_pointer. rewrite decide_False by done.
  by destruct incref.
Qed.

Lemma construct_Surface_succeeds cls p (w : World) :
  lib_surface_status L (foreign w) p = SUCCESS →
  construct cls (λ self, Surface_init self p PyNone) w
  = (set_foreign (foreign w) (call_surface_status p)
       (adopted cls p surface_destroy w), Ok (next_obj w)).
Proof.
  intros Hst. rewrite construct_Surface_run.
  unfold Surface_check_status, mbind, M_bind, bind, getattr_pointer,
    cairo_surface_status, query, _check_status. simpl.
  rewrite lookup_insert_eq. simpl. by rewrite decide_True.
Qed.

Lemma construct_Pattern_succeeds cls p (w : World) :
  lib_pattern_status L (foreign w) p = SUCCESS →
  construct cls (λ self, Pattern_init self p) w
  = (set_foreign (foreign w) (call_pattern_status p)
       (adopted cls p pattern_destroy w), Ok (next_obj w)).
Proof.
  intros Hst. rewrite construct_Pattern_run.
  unfold Pattern_check_status, mbind, M_bind, bind, getattr_pointer,
    cairo_pattern_status, query, _check_status. simpl.
  rewrite lookup_insert_eq. simpl. by rewrite decide_True.
Qed.

Lemma Surface_from_pointer_dispatch p incref (w : World) :
  p ≠ NULL →
  lib_surface_status L (referenced_surface incref p w) p = SUCCESS →
  outcome (Surface_from_pointer p incref) w = Ok (next_obj w) ∧
  class_of (next_obj w) (exec (Surface_from_pointer p incref) w)
  = Some (default Surface
            (SURFACE_TYPE_TO_CLASS
               !! lib_surface_get_type L (referenced_surface incref p w) p)).
Proof.
  intros Hp Hst. unfold outcome, exec, class_of.
  rewrite Surface_from_pointer_run by done.
  rewrite construct_Surface_succeeds by done. simpl.
  split; [by destruct incref|].
  destruct incref; simpl; by rewrite lookup_insert_eq.
Qed.

Lemma Pattern_from_pointer_dispatch p incref (w : World) :
  p ≠ NULL →
  lib_pattern_status L (referenced_pattern incref p w) p = SUCCESS →
  outcome (Pattern_from_pointer p incref) w = Ok (next_obj w) ∧
  class_of (next_obj w) (exec (Pattern_from_pointer p incref) w)
  = Some (default Pattern
            (PATTERN_TYPE_TO_CLASS
               !! lib_pattern_get_type L (referenced_pattern incref p w) p)).
Proof.
  intros Hp Hst. unfold outcome, exec, class_of.
  rewrite Pattern_from_pointer_run by done.
  rewrite construct_Pattern_succeeds by done. simpl.
  split; [by destruct incref|].
  destruct incref; simpl; by rewrite lookup_insert_eq.
Qed.

End Rehydration.

Lemma SURFACE_TYPE_TO_CLASS_entries :
  SURFACE_TYPE_TO_CLASS !! "IMAGE" = Some ImageSurface ∧
  SURFACE_TYPE_TO_CLASS !! "PDF" = Some PDFSurface ∧
  SURFACE_TYPE_TO_CLASS !! "SVG" = Some SVGSurface ∧
  SURFACE_TYPE_TO_CLASS !! "RECORDING" = Some RecordingSurface ∧
  SURFACE_TYPE_TO_CLASS !! "PS" = None.
Proof. vm_compute. done. Qed.

Lemma PATTERN_TYPE_TO_CLASS_entries :
  PATTERN_TYPE_TO_CLASS !! "SOLID" = Some SolidPattern ∧
  PATTERN_TYPE_TO_CLASS !! "SURFACE" = Some SurfacePattern ∧
  PATTERN_TYPE_TO_CLASS !! "LINEAR" = Some LinearGradient ∧
  PATTERN_TYPE_TO_CLASS !! "RADIAL" = Some RadialGradient.
Proof. vm_compute. done. Qed.

(** What holds of the dispatch: on a handle in a success state, a tag of
    the table gives the class the table has for it, and a tag that is not
    in the table gives the base class, without an error. *)
Lemma rehydration_follows_the_table (L : CairoLib) (PyState : Type)
    (w : World L PyState) (p : pointer) (incref : bool) :
  p ≠ NULL →
  (lib_surface_status L (referenced_surface incref p w) p = SUCCESS →
   outcome (Surface_from_pointer p incref) w = Ok (next_obj w) ∧
   match SURFACE_TYPE_TO_CLASS
           !! lib_surface_get_type L (referenced_surface incref p w) p with
   | Some cls =>
       class_of (next_obj w) (exec (Surface_from_pointer p incref) w)
       = Some cls
   | None =>
       class_of (next_obj w) (exec (Surface_from_pointer p incref) w)
       = Some Surface
   end) ∧
  (lib_pattern_status L (referenced_pattern incref p w) p = SUCCESS →
   outcome (Pattern_from_pointer p incref) w = Ok (next_obj w) ∧
   match PATTERN_TYPE_TO_CLASS
           !! lib_pattern_get_type L (referenced_pattern incref p w) p with
   | Some cls =>
       class_of (next_obj w) (exec (Pattern_from_pointer p incref) w)
       = Some cls
   | None =>
       class_of (next_obj w) (exec (Pattern_from_pointer p incref) w)
       = Some Pattern
   end).
Proof.
  intros Hp. split; intros Hst.
  - destruct (Surface_from_pointer_dispatch p incref w Hp Hst) as [Ho Hc].
    split; [exact Ho|]. rewrite Hc. by case_match.
  - destruct (Pattern_from_pointer_dispatch p incref w Hp Hst) as [Ho Hc].
    split; [exact Ho|]. rewrite Hc. by case_match.
Qed.

(** C3, where the code departs from it: a non-null handle in a success
    state whose type tag is ['PS'], the tag of PostScript surfaces, is
    re-hydrated without an error as an instance of the base class
    [Surface] and not of [PSSurface], the table having no entry for
    ['PS']. *)
Theorem C3_postscript_handle_wrapped_as_base (L : CairoLib) (PyState : Type)
    (w : World L PyState) (p : pointer) (incref : bool) :
  p ≠ NULL →
  lib_surface_get_type L (referenced_surface incref p w) p = "PS" →
  lib_surface_status L (referenced_surface incref p w) p = SUCCESS →
  outcome (Surface_from_pointer p incref) w = Ok (next_obj w) ∧
  class_of (next_obj w) (exec (Surface_from_pointer p incref) w)
  = Some Surface ∧
  class_of (next_obj w) (exec (Surface_from_pointer p incref) w)
  ≠ Some PSSurface.
Proof.
  intros Hp Htag Hst.
  destruct (Surface_from_pointer_dispatch p incref w Hp Hst) as [Ho Hc].
  rewrite Htag in Hc.
  destruct SURFACE_TYPE_TO_CLASS_entries as (_ & _ & _ & _ & Hps).
  rewrite Hps in Hc. simpl in Hc.
  split; [exact Ho|split; [exact Hc|]]. rewrite Hc. discriminate.
Qed.

Lemma C3_witness :
  (3 : pointer) ≠ NULL ∧
  lib_surface_get_type demo_cairo
    (referenced_surface false 3 (demo_world ())) 3 = "PS" ∧
  class_of 0%nat (exec (Surface_from_pointer 3 false) (demo_world ()))
  = Some Surface.
Proof.
  assert (Hp : (3 : pointer) ≠ NULL) by (vm_compute; discriminate).
  assert (Htag : lib_surface_get_type demo_cairo
            (referenced_surface false 3 (demo_world ())) 3 = "PS")
    by (vm_compute; reflexivity).
  assert (Hst : lib_surface_status demo_cairo
            (referenced_surface false 3 (demo_world ())) 3 = SUCCESS)
    by (vm_compute; reflexivity).
  split; [exact Hp|split; [exact Htag|]].
  exact (proj1 (proj2 (C3_postscript_handle_wrapped_as_base demo_cairo ()
    (demo_world ()) 3 false Hp Htag Hst))).
Defined.

(** C8. Re-hydrating the null pointer raises [ValueError('Null pointer')]
    and does nothing else: no foreign call, no finalizer, no wrapper; for
    the Surface family and for the Pattern family, whatever [incref]. *)
Theorem C8_null_pointer_rejected (L : CairoLib) (PyState : Type)
    (w : World L PyState) (incref : bool) :
  Surface_from_pointer NULL incref w = (w, Raise (ValueError "Null pointer")) ∧
  Pattern_from_pointer NULL incref w = (w, Raise (ValueError "Null pointer")).
Proof. split; reflexivity. Qed.



(** ** The registry only loses a bundle to its release callback *)

Section Unpinning.

Context {L : CairoLib} {PyState : Type}.
Local Abbreviation World := (World L PyState).
Local Abbreviation M := (M L PyState).

Lemma KeepAlive_save_grows self :
  steps_in registry_grows (KeepAlive_save self : M unit).
Proof. intros w. unfold registry_grows. simpl. set_solver. Qed.

Local Hint Resolve KeepAlive_save_grows : steps.
Local Hint Extern 5 (steps_in registry_grows _) =>
  apply same_registry_grows : steps.
Local Hint Resolve Surface_check_status_same Pattern_check_status_same
  Surface_passthrough_same Pattern_init_same : steps.

Lemma Surface_init_grows self p tka :
  steps_in registry_grows (Surface_init self p tka : M unit).
Proof. unfold Surface_init, cairo_surface_set_user_data. steps. Qed.

Lemma set_mime_data_grows self mime_type data :
  steps_in registry_grows (set_mime_data self mime_type data : M unit).
Proof.
  unfold set_mime_data, cairo_surface_set_mime_data.
  destruct data; steps.
Qed.

Lemma ImageSurface_init_grows self format width height data stride :
  steps_in registry_grows
    (ImageSurface_init self format width height data stride : M unit).
Proof.
  pose proof Surface_init_grows.
  unfold ImageSurface_init, format_stride_for_width,
    cairo_format_stride_for_width, cairo_image_surface_create,
    cairo_image_surface_create_for_data.
  destruct data as [data|]; [|steps].
  destruct (from_buffer data) as [address length].
  destruct stride; steps.
Qed.

Lemma construct_grows cls (init : nat → M unit) :
  (∀ self, steps_in registry_grows (init self)) →
  steps_in registry_grows (construct cls init).
Proof. intros Hinit. unfold construct. steps. Qed.

Lemma void_grows {A} (m : M A) :
  steps_in registry_grows m → steps_in registry_grows (void m).
Proof. intros Hm. unfold void. steps. Qed.

Lemma Surface_from_pointer_grows p incref :
  steps_in registry_grows (Surface_from_pointer p incref : M nat).
Proof.
  pose proof Surface_init_grows.
  unfold Surface_from_pointer, cairo_surface_reference,
    cairo_surface_get_type.
  destruct incref; steps.
Qed.

Lemma Pattern_from_pointer_grows p incref :
  steps_in registry_grows (Pattern_from_pointer p incref : M nat).
Proof.
  unfold Pattern_from_pointer, cairo_pattern_reference,
    cairo_pattern_get_type.
  destruct incref; steps.
Qed.

Lemma surface_call_grows self o :
  steps_in registry_grows (surface_call self o : M unit).
Proof.
  pose proof set_mime_data_grows.
  destruct o; simpl; unfold mark_dirty, show_page, copy_page, flush, finish;
    steps.
Qed.

Lemma pattern_call_grows self o :
  steps_in registry_grows (pattern_call self o : M unit).
Proof.
  destruct o; simpl; unfold set_extend, set_filter, cairo_pattern_method;
    steps.
Qed.

Lemma read_func_grows (f : file_obj) closure data length :
  steps_in registry_grows (_make_read_func f closure data length : M status).
Proof. unfold _make_read_func. cbv beta. steps. Qed.

Lemma write_func_grows (f : file_obj) (data : pointer) (length : Z) :
  steps_in registry_grows
    (ffi_callback WRITE_ERROR
       (buf ← ffi_buffer data length;
        method_call (file_write f buf);;
        mret SUCCESS) : M status).
Proof. steps. Qed.

(** Every action but the release callback keeps what is pinned. *)
Lemma perform_grows (a : action) :
  (∀ b, a ≠ act_release b) → steps_in registry_grows (perform a : M unit).
Proof.
  intros Ha.
  destruct a; simpl;
    try (apply void_grows);
    try (apply construct_grows; intros ?);
    auto using Surface_init_grows, ImageSurface_init_grows, Pattern_init_same,
      Surface_from_pointer_grows, Pattern_from_pointer_grows,
      surface_call_grows, pattern_call_grows, read_func_grows,
      write_func_grows, KeepAlive_save_grows, same_registry_grows,
      dealloc_same, KeepAlive_init_same.
  by destruct (Ha self).
Qed.

Lemma KeepAlive_callback_run b (w : World) :
  KeepAlive_callback b w = (set_instances (instances w ∖ {[b]}) w, Ok ()) ∧
  (b ∈ instances w ∨ exec (KeepAlive_callback b) w = w).
Proof.
  unfold exec, KeepAlive_callback, ffi_callback, instances_remove.
  destruct (decide (b ∈ instances w)) as [Hb|Hb]; simpl.
  - split; [done|by left].
  - split; [|by right]. f_equal. destruct w; unfold set_instances; simpl.
    f_equal. simpl in Hb. apply set_eq. intros x.
    rewrite elem_of_difference, elem_of_singleton.
    split; [intros Hx; split; [done|congruence]|tauto].
Qed.

(** An action after which a pinned bundle is gone is its release
    callback. *)
Lemma perform_only_release b (a : action) (w : World) :
  b ∈ instances w → b ∉ instances (exec (perform a) w) → a = act_release b.
Proof.
  intros Hin Hout.
  destruct a as [| | | | | | | | | |b'| |];
    try (exfalso; apply Hout; apply perform_grows;
         [intros ?; discriminate|exact Hin]).
  simpl in Hout. unfold exec in Hout.
  rewrite (proj1 (KeepAlive_callback_run b' w)) in Hout. simpl in Hout.
  f_equal. destruct (decide (b' = b)) as [|Hbb]; [done|].
  exfalso. apply Hout. set_solver.
Qed.

Lemma perform_keeps b (a : action) (w : World) :
  a ≠ act_release b → b ∈ instances w → b ∈ instances (exec (perform a) w).
Proof.
  intros Ha Hin.
  destruct (decide (b ∈ instances (exec (perform a) w))) as [|Hout]; [done|].
  destruct Ha. by apply perform_only_release with w.
Qed.

Lemma perform_all_keeps b (l : list action) (w : World) :
  act_release b ∉ l → b ∈ instances w →
  b ∈ instances (foldl (λ w a, exec (perform a) w) w l).
Proof.
  revert w. induction l as [|a l IH]; intros w Hl Hin; simpl; [done|].
  apply IH.
  - intros Hl'. apply Hl. by right.
  - apply perform_keeps; [|done]. intros ->. apply Hl. by left.
Qed.

End Unpinning.

(** C5. [save] pins the bundle.  Whatever actions follow, as long as none
    is the bundle's release callback, the bundle is still pinned.  The
    release callback then removes that bundle and no other, and returns
    normally; after the callback has fired the bundle is not in the
    registry, pinned before or not.  An action after which a pinned bundle
    is gone is that bundle's release callback. *)
Theorem C5_release_callback_unpins (L : CairoLib) (PyState : Type)
    (w : World L PyState) (self : KeepAlive) (later : list action)
    (b : nat) (a : action) :
  (ka_id self) ∈ instances (exec (KeepAlive_save self) w) ∧
  (act_release (ka_id self) ∉ later →
   let w2 := perform_all later (exec (KeepAlive_save self) w) in
   (ka_id self) ∈ instances w2 ∧
   outcome (KeepAlive_callback (ka_id self)) w2 = Ok () ∧
   instances (exec (KeepAlive_callback (ka_id self)) w2)
   = instances w2 ∖ {[ka_id self]}) ∧
  (b ∉ instances (exec (KeepAlive_callback b) w)) ∧
  (b ∈ instances w → b ∉ instances (exec (perform a) w) →
   a = act_release b).
Proof.
  assert (Hin : ka_id self ∈ instances (exec (KeepAlive_save self) w))
    by (simpl; set_solver).
  split; [exact Hin|split; [|split]].
  - intros Hlater w2.
    split; [by apply perform_all_keeps|]. unfold outcome, exec.
    by rewrite (proj1 (KeepAlive_callback_run (ka_id self) w2)).
  - unfold exec. rewrite (proj1 (KeepAlive_callback_run b w)). simpl.
    rewrite elem_of_difference, elem_of_singleton. tauto.
  - apply perform_only_release.
Qed.

(** ** Raw memory *)

Section Memory.

Implicit Types (m : gmap Z Byte.byte) (p a : pointer) (bs : bytes).

Lemma store_lookup_out p bs m a :
  a < p ∨ p + len bs ≤ a → store p bs m !! a = m !! a.
Proof.
  revert p m. induction bs as [|b bs IH]; intros p m Ha; simpl; [done|].
  unfold len in *. simpl length in Ha.
  rewrite IH by lia. apply lookup_insert_ne. lia.
Qed.

Lemma store_lookup_in p bs m (i : nat) :
  (i < length bs)%nat → store p bs m !! (p + Z.of_nat i) = bs !! i.
Proof.
  revert p m i. induction bs as [|b bs IH]; intros p m i Hi; simpl in *;
    [lia|].
  destruct i as [|i]; simpl.
  - rewrite store_lookup_out by lia.
    rewrite Z.add_0_r. apply lookup_insert_eq.
  - replace (p + Z.of_nat (S i)) with (p + 1 + Z.of_nat i) by lia.
    apply IH. lia.
Qed.

Lemma length_load p n m : length (load p n m) = Z.to_nat n.
Proof. unfold load. by rewrite length_fmap, length_seqZ. Qed.

Lemma load_lookup p n m (i : nat) :
  Z.of_nat i < n →
  load p n m !! i = Some (default Byte.x00 (m !! (p + Z.of_nat i))).
Proof.
  intros Hi. unfold load.
  rewrite list_lookup_fmap, lookup_seqZ_lt by done. done.
Qed.

(** What was stored is what is read back. *)
Lemma load_store p bs m : load p (len bs) (store p bs m) = bs.
Proof.
  apply list_eq. intros i. unfold len.
  destruct (decide (i < length bs)%nat) as [Hi|Hi].
  - rewrite load_lookup by lia. rewrite store_lookup_in by done.
    by destruct (lookup_lt_is_Some_2 bs i Hi) as [b ->].
  - rewrite (lookup_ge_None_2 bs) by lia.
    apply lookup_ge_None_2. rewrite length_load. lia.
Qed.

End Memory.

(** ** The stream adapters *)

(** C6. The read adapter, asked for [length] bytes from a source whose
    [read(length)] returns [string]: with fewer than [length] bytes it
    returns the read-error status to the foreign caller and leaves the
    destination buffer as it was; with exactly [length] bytes it returns
    the success status, the destination buffer then holds those bytes in
    order, and memory outside the buffer is as it was. *)
Theorem C6_read_adapter (L : CairoLib) (PyState : Type) (w : World L PyState)
    (f : file_obj) (closure data : pointer) (length : Z) (string : bytes)
    (s' : PyState) :
  file_read f length (py w) = (s', Ok string) →
  let m := _make_read_func f closure data length in
  (len string < length →
   outcome m w = Ok READ_ERROR ∧ memory (exec m w) = memory w) ∧
  (len string = length →
   outcome m w = Ok SUCCESS ∧
   load data length (memory (exec m w)) = string ∧
   ∀ a, a < data ∨ data + length ≤ a →
        memory (exec m w) !! a = memory w !! a).
Proof.
  intros Hread m. subst m.
  unfold outcome, exec, _make_read_func, ffi_callback, mbind, M_bind, bind,
    method_call. rewrite Hread. simpl. split; intros Hlen.
  - by rewrite decide_True.
  - rewrite decide_False by lia. unfold buffer_setslice.
    rewrite decide_True by lia. simpl.
    split; [done|]. rewrite <- Hlen.
    split; [apply load_store|]. intros a Ha. by apply store_lookup_out.
Qed.

Lemma C6_witness :
  let w := demo_world {| unread := [Byte.x01; Byte.x02; Byte.x03];
                         written := [] |} in
  outcome (_make_read_func BytesIO NULL 100 5) w = Ok READ_ERROR ∧
  outcome (_make_read_func BytesIO NULL 100 2) w = Ok SUCCESS ∧
  load 100 2 (memory (exec (_make_read_func BytesIO NULL 100 2) w))
  = [Byte.x01; Byte.x02].
Proof.
  intros w. split; [|split].
  - refine (proj1 (proj1 (C6_read_adapter demo_cairo stream w BytesIO NULL
      100 5 [Byte.x01; Byte.x02; Byte.x03] _ eq_refl) _)).
    vm_compute. reflexivity.
  - refine (proj1 (proj2 (C6_read_adapter demo_cairo stream w BytesIO NULL
      100 2 [Byte.x01; Byte.x02] _ eq_refl) _)).
    vm_compute. reflexivity.
  - refine (proj1 (proj2 (proj2 (C6_read_adapter demo_cairo stream w BytesIO
      NULL 100 2 [Byte.x01; Byte.x02] _ eq_refl) _))).
    vm_compute. reflexivity.
Defined.

(** C7. The write adapter made for a sink, invoked on a foreign buffer of
    [length] bytes: the sink's [write] is called once, on the [length]
    bytes of the buffer in their order; when [write] returns, the adapter
    returns the success status; when [write] raises, the adapter returns
    the write-error status as an ordinary return value, so that nothing is
    raised across the boundary. *)
Theorem C7_write_adapter (L : CairoLib) (PyState : Type) (w : World L PyState)
    (f : file_obj) (closure data : pointer) (length : Z) :
  ∃ write_func,
    _make_write_func (Some f) = Some write_func ∧
    let buf := load data length (memory w) in
    (0 ≤ length → len buf = length) ∧
    (∀ i : nat, Z.of_nat i < length →
       buf !! i = Some (default Byte.x00 (memory w !! (data + Z.of_nat i)))) ∧
    exec (write_func closure data length) w
    = set_py (file_write f buf (py w)).1 w ∧
    outcome (write_func closure data length) w
    = Ok match (file_write f buf (py w)).2 with
         | Ok _ => SUCCESS
         | Raise _ => WRITE_ERROR
         end.
Proof.
  eexists. split; [reflexivity|]. intros buf.
  split; [|split; [|split]].
  - intros Hl. unfold len, buf. rewrite length_load. lia.
  - intros i Hi. by apply load_lookup.
  - unfold exec, ffi_callback, mbind, M_bind, bind, ffi_buffer, method_call.
    simpl. fold buf. by destruct (file_write f buf (py w)) as [s [[]|e]].
  - unfold outcome, ffi_callback, mbind, M_bind, bind, ffi_buffer,
      method_call.
    simpl. fold buf. by destruct (file_write f buf (py w)) as [s [[]|e]].
Qed.

(** With an in-memory stream as the sink, the bytes of the buffer are
    appended to what it holds; a sink that raises gives the write-error
    status. *)
Lemma write_adapter_BytesIO (L : CairoLib) (w : World L stream)
    (write_func : pointer → pointer → Z → M L stream status)
    (closure data : pointer) (length : Z) :
  _make_write_func (Some BytesIO) = Some write_func →
  written (py (exec (write_func closure data length) w))
  = (written (py w) ++ load data length (memory w))%list ∧
  outcome (write_func closure data length) w = Ok SUCCESS.
Proof. intros [= <-]. done. Qed.

Lemma write_adapter_broken_file (L : CairoLib) (w : World L stream)
    (write_func : pointer → pointer → Z → M L stream status)
    (closure data : pointer) (length : Z) :
  _make_write_func (Some broken_file) = Some write_func →
  write_func closure data length w = (w, Ok WRITE_ERROR).
Proof. intros [= <-]. by destruct w. Qed.

Lemma C7_witness :
  let w := set_memory (store 200 [Byte.x0a; Byte.x0b; Byte.x0c] ∅)
             (demo_world {| unread := []; written := [Byte.x09] |}) in
  ∃ write_func,
    _make_write_func (Some BytesIO) = Some write_func ∧
    written (py (exec (write_func NULL 200 3) w))
    = [Byte.x09; Byte.x0a; Byte.x0b; Byte.x0c] ∧
    outcome (write_func NULL 200 3) w = Ok SUCCESS.
Proof.
  intros w.
  destruct (C7_write_adapter demo_cairo stream w BytesIO NULL 200 3)
    as (write_func & Hmake & _ & _ & Hexec & Hout).
  exists write_func. split; [exact Hmake|]. split.
  - rewrite Hexec. vm_compute. reflexivity.
  - rewrite Hout. vm_compute. reflexivity.
Defined.

Lemma C5_witness :
  let self := {| ka_id := 7; ka_objects := [PyCallback 0];
                 ka_closure := (7%nat, 7%nat) |} in
  let later := [act_surface_from_pointer 1 true; act_release 4;
                act_dealloc 0] in
  let w2 := perform_all later (exec (KeepAlive_save self) (demo_world ())) in
  (act_release 7 ∉ later) ∧ (7%nat ∈ instances w2) ∧
  instances (exec (KeepAlive_callback 7) w2) = instances w2 ∖ {[7%nat]}.
Proof.
  intros self later w2.
  assert (Hl : act_release (PyState := ()) (ka_id self) ∉ later).
  { unfold later. rewrite !not_elem_of_cons. repeat split; try discriminate.
    apply not_elem_of_nil. }
  split; [exact Hl|].
  destruct (proj1 (proj2 (C5_release_callback_unpins demo_cairo ()
    (demo_world ()) self later 0%nat (act_dealloc 0))) Hl) as (Hin & _ & Heq).
  split; [exact Hin|exact Heq].
Defined.

(** ** The length guard of [ImageSurface.__init__] *)




(** * Further properties of the code *)

(** ** What a successful construction pins *)

Section Pinning.

Context {L : CairoLib} {PyState : Type}.
Local Abbreviation World := (World L PyState).
Local Abbreviation M := (M L PyState).

(** The world a construction through [Surface.__init__] leaves, and what
    it returns, read off the four ways it can go. *)
Lemma construct_Surface_cases cls p tka (w : World) :
  let m := construct cls (λ self, Surface_init self p tka) in
  let w1 := set_foreign (foreign w) (call_surface_status p)
              (adopted cls p surface_destroy w) in
  let ka := S (next_obj w) in
  let r := lib_surface_set_user_data L (foreign w) p ka in
  let w2 := set_foreign r.1 (call_surface_set_user_data p ka)
              (set_heap (heap w1) (S ka) w1) in
  m w =
  if decide (lib_surface_status L (foreign w) p = SUCCESS) then
    if decide (tka ∉ [PyNone; FfiNULL]) then
      if decide (r.2 = SUCCESS)
      then (set_instances ({[ka]} ∪ instances w) w2, Ok (next_obj w))
      else (w2, Raise (CairoError r.2))
    else (w1, Ok (next_obj w))
  else (w1, Raise (CairoError (lib_surface_status L (foreign w) p))).
Proof.
  intros m w1 ka r w2. subst m. rewrite construct_Surface_run.
  unfold Surface_check_status, mbind, M_bind, bind, getattr_pointer,
    cairo_surface_status, query, _check_status. simpl.
  rewrite lookup_insert_eq. simpl.
  destruct (decide (lib_surface_status L (foreign w) p = SUCCESS)); [|done].
  simpl. destruct (decide (tka ∉ [PyNone; FfiNULL])); [|done].
  unfold KeepAlive_init, cairo_surface_set_user_data, request,
    KeepAlive_save. simpl. rewrite lookup_insert_eq. simpl.
  fold ka. fold r. by destruct (decide (r.2 = SUCCESS)).
Qed.

End Pinning.

(** X1. A construction through [Surface.__init__] with a keep-alive
    target, on a handle in a success state and with the user data
    accepted, returns the wrapper and pins exactly one new bundle, the one
    whose callback it handed to [cairo_surface_set_user_data]; its foreign
    calls are the status query and that registration. *)
Theorem Surface_init_pins_target (L : CairoLib) (PyState : Type)
    (w : World L PyState) (cls : class) (p : pointer) (tka : pyobj) :
  tka ∉ [PyNone; FfiNULL] →
  lib_surface_status L (foreign w) p = SUCCESS →
  (lib_surface_set_user_data L (foreign w) p (S (next_obj w))).2 = SUCCESS →
  let m := construct cls (λ self, Surface_init self p tka) in
  outcome m w = Ok (next_obj w) ∧
  instances (exec m w) = {[S (next_obj w)]} ∪ instances w ∧
  trace (exec m w)
  = (trace w ++ [call_surface_status p;
                 call_surface_set_user_data p (S (next_obj w))])%list.
Proof.
  intros Htka Hst Hud m. subst m. unfold outcome, exec.
  rewrite construct_Surface_cases.
  rewrite !decide_True by done. simpl.
  split; [done|split; [done|]]. by rewrite <- app_assoc.
Qed.

Lemma Surface_init_pins_target_witness :
  instances
    (exec (construct ImageSurface
             (λ self, Surface_init self 1 (PyBuffer (OtherBuffer 64 400 1))))
       (demo_world ()))
  = {[1%nat]} ∪ instances (demo_world ()).
Proof.
  refine (proj1 (proj2 (Surface_init_pins_target demo_cairo () (demo_world ())
    ImageSurface 1 (PyBuffer (OtherBuffer 64 400 1)) _ _ _))).
  - vm_compute. intros H. apply list_elem_of_In in H.
    destruct H as [H|[H|[]]]; discriminate H.
  - vm_compute. reflexivity.
  - vm_compute. reflexivity.
Defined.

(** X2. A construction through [Surface.__init__] with no keep-alive
    target ([None] or [ffi.NULL]) creates no bundle and pins nothing,
    whether it succeeds or raises; its only foreign call is the status
    query. *)
Theorem Surface_init_without_target (L : CairoLib) (PyState : Type)
    (w : World L PyState) (cls : class) (p : pointer) (tka : pyobj) :
  tka ∈ [PyNone; FfiNULL] →
  let m := construct cls (λ self, Surface_init self p tka) in
  instances (exec m w) = instances w ∧
  next_obj (exec m w) = S (next_obj w) ∧
  trace (exec m w) = (trace w ++ [call_surface_status p])%list.
Proof.
  intros Htka m. subst m. unfold exec. rewrite construct_Surface_cases.
  rewrite (decide_False (P := tka ∉ _)) by (intros H; by apply H).
  by destruct (decide (lib_surface_status L (foreign w) p = SUCCESS)).
Qed.

Lemma Surface_init_without_target_witness :
  instances
    (exec (construct PDFSurface (λ self, Surface_init self 2 FfiNULL))
       (demo_world ()))
  = instances (demo_world ()).
Proof.
  refine (proj1 (Surface_init_without_target demo_cairo () (demo_world ())
    PDFSurface 2 FfiNULL _)).
  apply list_elem_of_In. right. left. reflexivity.
Defined.

(** X3. [set_mime_data] on a wrapper holding the handle [p].  With
    [data=None] it makes the one foreign call with no data and no
    callback, creates no bundle and pins nothing.  With data it hands the
    callback of a new bundle to the foreign call and, when the call
    reports success, returns with exactly that bundle pinned. *)
Theorem set_mime_data_pins (L : CairoLib) (PyState : Type)
    (w : World L PyState) (self : nat) (cls : class) (c : cdata)
    (mime_type : string) :
  heap w !! self = Some {| inst_class := cls; inst_pointer := Some c |} →
  (let m := set_mime_data self mime_type None in
   trace (exec m w)
   = (trace w ++ [call_surface_set_mime_data (cd_addr c) mime_type None
                    None])%list ∧
   instances (exec m w) = instances w ∧
   next_obj (exec m w) = next_obj w) ∧
  (∀ data,
     let m := set_mime_data self mime_type (Some data) in
     trace (exec m w)
     = (trace w ++ [call_surface_set_mime_data (cd_addr c) mime_type
                      (Some data) (Some (next_obj w))])%list ∧
     ((lib_surface_set_mime_data L (foreign w) (cd_addr c) mime_type
         (Some data) (Some (next_obj w))).2 = SUCCESS →
      outcome m w = Ok () ∧
      instances (exec m w) = {[next_obj w]} ∪ instances w)).
Proof.
  intros Hh. split.
  - simpl. unfold exec, set_mime_data, mbind, M_bind, bind, getattr_pointer,
      cairo_surface_set_mime_data, request, _check_status.
    rewrite Hh. simpl. by case_decide.
  - intros data. simpl.
    unfold outcome, exec, set_mime_data, mbind, M_bind, bind, KeepAlive_init,
      getattr_pointer, cairo_surface_set_mime_data, request, _check_status,
      KeepAlive_save.
    simpl. rewrite Hh. simpl. split.
    + by case_decide.
    + intros Hst. by rewrite decide_True.
Qed.

Lemma set_mime_data_pins_witness :
  let w := exec (construct PDFSurface (λ self, Surface_init self 2 PyNone))
             (demo_world ()) in
  instances (exec (set_mime_data 0 "image/png" None) w) = instances w ∧
  instances (exec (set_mime_data 0 "image/png" (Some [Byte.x89])) w)
  = {[1%nat]} ∪ instances w.
Proof.
  intros w.
  assert (Hh : heap w !! 0%nat
               = Some {| inst_class := PDFSurface;
                         inst_pointer := Some {| cd_id := 0; cd_addr := 2 |} |})
    by (vm_compute; reflexivity).
  destruct (set_mime_data_pins demo_cairo () w 0 PDFSurface _ "image/png" Hh)
    as [(_ & Hnone & _) Hdata].
  split; [exact Hnone|].
  apply (Hdata [Byte.x89]). vm_compute. reflexivity.
Defined.

(** X4. [KeepAlive.save] twice pins once: the registry is a set, and one
    release then unpins the bundle.  The release callback of a bundle that
    is not pinned (never saved, or released already) changes nothing and
    returns normally, the [KeyError] of [set.remove] staying inside the
    callback. *)
Theorem KeepAlive_save_twice_release_once (L : CairoLib) (PyState : Type)
    (w : World L PyState) (self : KeepAlive) :
  let w2 := exec (KeepAlive_save self) (exec (KeepAlive_save self) w) in
  instances w2 = instances (exec (KeepAlive_save self) w) ∧
  (ka_id self ∉ instances (exec (KeepAlive_callback (ka_id self)) w2)) ∧
  (ka_id self ∉ instances w →
   instances_remove (ka_id self) w = (w, Raise KeyError) ∧
   KeepAlive_callback (ka_id self) w = (w, Ok ())) ∧
  KeepAlive_callback (ka_id self) (exec (KeepAlive_callback (ka_id self)) w2)
  = (exec (KeepAlive_callback (ka_id self)) w2, Ok ()).
Proof.
  intros w2.
  assert (Hswallowed : ∀ w' : World L PyState, ka_id self ∉ instances w' →
            instances_remove (ka_id self) w' = (w', Raise KeyError) ∧
            KeepAlive_callback (ka_id self) w' = (w', Ok ())).
  { intros w' Hout. unfold KeepAlive_callback, ffi_callback, instances_remove.
    by rewrite decide_False. }
  assert (Hgone : ka_id self
            ∉ instances (exec (KeepAlive_callback (ka_id self)) w2)).
  { unfold exec. rewrite (proj1 (KeepAlive_callback_run (ka_id self) w2)).
    simpl. rewrite elem_of_difference, elem_of_singleton. tauto. }
  split; [|split; [exact Hgone|split; [apply Hswallowed|]]].
  - simpl. apply set_eq. intros x. rewrite !elem_of_union. tauto.
  - by apply Hswallowed.
Qed.

Lemma KeepAlive_save_twice_release_once_witness :
  let self := {| ka_id := 3; ka_objects := []; ka_closure := (3%nat, 3%nat) |} in
  KeepAlive_callback 3 (demo_world ()) = (demo_world (), Ok ()).
Proof.
  intros self.
  refine (proj2 (proj1 (proj2 (proj2 (KeepAlive_save_twice_release_once
    demo_cairo () (demo_world ()) self))) _)).
  vm_compute. intros H. exact (not_elem_of_empty (C := gset nat) 3%nat H).
Defined.

(** X5. The read adapter returns the success status exactly when the
    source's [read(length)] returned, without raising, a string of
    exactly [length] bytes.  In every other case, a shorter string, a
    longer one or an exception of [read], it returns the read-error status
    and the destination buffer is as it was.  In no case does it write
    outside the [length] bytes of the buffer. *)
Theorem read_adapter_all_or_nothing (L : CairoLib) (PyState : Type)
    (w : World L PyState) (f : file_obj) (closure data : pointer)
    (length : Z) :
  let m := _make_read_func f closure data length in
  (outcome m w = Ok SUCCESS ↔
   ∃ string, (file_read f length (py w)).2 = Ok string ∧ len string = length) ∧
  (outcome m w ≠ Ok SUCCESS →
   outcome m w = Ok READ_ERROR ∧ memory (exec m w) = memory w) ∧
  (∀ a, a < data ∨ data + length ≤ a →
        memory (exec m w) !! a = memory w !! a).
Proof.
  intros m. subst m.
  unfold outcome, exec, _make_read_func, ffi_callback, mbind, M_bind, bind,
    method_call.
  destruct (file_read f length (py w)) as [s' [string|e]]; simpl.
  - destruct (decide (len string < length)) as [Hlt|Hge]; simpl.
    + split; [|done]. split; [discriminate|].
      intros (string' & [= <-] & Hlen). lia.
    + unfold buffer_setslice.
      destruct (decide (len string = Z.min (len string) length)) as [Heq|Hne];
        simpl.
      * assert (Hlen : len string = length) by lia.
        split; [split; [eauto|done]|]. split; [done|].
        intros a Ha. apply store_lookup_out. lia.
      * split; [|done]. split; [discriminate|].
        intros (string' & [= <-] & Hlen). lia.
  - split; [|done]. split; [discriminate|]. by intros (? & [=] & _).
Qed.

(** X6. A pass-through method of a surface holding the handle [p] makes
    its foreign call and then queries the status, whatever it finds; it
    returns when the status after the call is the success status and
    otherwise raises the status error carrying that status. *)
Theorem Surface_passthrough_checks_status (L : CairoLib) (PyState : Type)
    (w : World L PyState) (name : string) (self : nat) (cls : class)
    (c : cdata) :
  heap w !! self = Some {| inst_class := cls; inst_pointer := Some c |} →
  let m := Surface_passthrough name self in
  let st := lib_surface_status L
              (lib_surface_method L name (foreign w) (cd_addr c)) (cd_addr c) in
  trace (exec m w)
  = (trace w ++ [call_surface_method name (cd_addr c);
                 call_surface_status (cd_addr c)])%list ∧
  outcome m w = (if decide (st = SUCCESS) then Ok ()
                 else Raise (CairoError st)) ∧
  instances (exec m w) = instances w ∧
  finalizers (exec m w) = finalizers w.
Proof.
  intros Hh m st. subst m st.
  unfold outcome, exec, Surface_passthrough, Surface_check_status, mbind,
    M_bind, bind, getattr_pointer, cairo_surface_method, command,
    cairo_surface_status, query, _check_status.
  rewrite Hh. simpl. rewrite Hh. simpl.
  case_decide; simpl; by rewrite <- app_assoc.
Qed.

Lemma Surface_passthrough_checks_status_witness :
  let w := exec (construct PDFSurface (λ self, Surface_init self 2 PyNone))
             (demo_world ()) in
  outcome (finish 0) w = Ok () ∧ outcome (flush 0) w = Ok ().
Proof.
  intros w.
  assert (Hh : heap w !! 0%nat
               = Some {| inst_class := PDFSurface;
                         inst_pointer := Some {| cd_id := 0; cd_addr := 2 |} |})
    by (vm_compute; reflexivity).
  unfold finish, flush. split.
  - rewrite (proj1 (proj2 (Surface_passthrough_checks_status demo_cairo () w
      "cairo_surface_finish" 0 PDFSurface _ Hh))).
    vm_compute. reflexivity.
  - rewrite (proj1 (proj2 (Surface_passthrough_checks_status demo_cairo () w
      "cairo_surface_flush" 0 PDFSurface _ Hh))).
    vm_compute. reflexivity.
Defined.

(** ** Re-hydration: its foreign calls and what it owns *)

Section Adoption.

Context {L : CairoLib} {PyState : Type}.
Local Abbreviation World := (World L PyState).
Local Abbreviation M := (M L PyState).

(** [Surface.__init__] on an allocated wrapper, read off the four ways it
    can go. *)
Lemma Surface_init_cases self cls ip p tka (w : World) :
  heap w !! self = Some {| inst_class := cls; inst_pointer := ip |} →
  let w1 := set_foreign (foreign w) (call_surface_status p)
              (with_pointer self cls p surface_destroy w) in
  let ka := next_obj w in
  let r := lib_surface_set_user_data L (foreign w) p ka in
  let w2 := set_foreign r.1 (call_surface_set_user_data p ka)
              (set_heap (heap w1) (S ka) w1) in
  Surface_init self p tka w =
  if decide (lib_surface_status L (foreign w) p = SUCCESS) then
    if decide (tka ∉ [PyNone; FfiNULL]) then
      if decide (r.2 = SUCCESS)
      then (set_instances ({[ka]} ∪ instances w) w2, Ok ())
      else (w2, Raise (CairoError r.2))
    else (w1, Ok ())
  else (w1, Raise (CairoError (lib_surface_status L (foreign w) p))).
Proof.
  intros Hh w1 ka r w2.
  unfold Surface_init, Surface_check_status, mbind, M_bind, bind, ffi_gc,
    setattr_pointer, getattr_pointer, cairo_surface_status, query,
    _check_status. simpl.
  rewrite Hh. simpl. rewrite lookup_insert_eq. simpl.
  destruct (decide (lib_surface_status L (foreign w) p = SUCCESS)); [|done].
  simpl. destruct (decide (tka ∉ [PyNone; FfiNULL])); [|done].
  unfold KeepAlive_init, cairo_surface_set_user_data, request,
    KeepAlive_save. simpl. rewrite lookup_insert_eq. simpl.
  fold ka. fold r. by destruct (decide (r.2 = SUCCESS)).
Qed.

Lemma construct_Pattern_cases cls p (w : World) :
  construct cls (λ self, Pattern_init self p) w =
  (set_foreign (foreign w) (call_pattern_status p)
     (adopted cls p pattern_destroy w),
   if decide (lib_pattern_status L (foreign w) p = SUCCESS)
   then Ok (next_obj w)
   else Raise (CairoError (lib_pattern_status L (foreign w) p))).
Proof.
  destruct (decide (lib_pattern_status L (foreign w) p = SUCCESS)) as [Hst|Hst].
  - by apply construct_Pattern_succeeds.
  - by apply construct_Pattern_raises.
Qed.

Lemma construct_Surface_plain cls p (w : World) :
  construct cls (λ self, Surface_init self p PyNone) w =
  (set_foreign (foreign w) (call_surface_status p)
     (adopted cls p surface_destroy w),
   if decide (lib_surface_status L (foreign w) p = SUCCESS)
   then Ok (next_obj w)
   else Raise (CairoError (lib_surface_status L (foreign w) p))).
Proof.
  destruct (decide (lib_surface_status L (foreign w) p = SUCCESS)) as [Hst|Hst].
  - by apply construct_Surface_succeeds.
  - by apply construct_Surface_raises.
Qed.

(** A wrapper keeps its handle while another one is built. *)
Lemma adopted_frame self' c' d' cls p d (w : World) :
  owns self' c' d' w → self' ≠ next_obj w → cd_id c' ≠ next_cdata w →
  owns self' c' d' (adopted cls p d w).
Proof.
  intros [[cls' Hh] Hf] Hs Hc. split; simpl.
  - exists cls'. by rewrite !lookup_insert_ne.
  - by rewrite lookup_insert_ne.
Qed.

(** A wrapper keeps its handle while another one is reclaimed. *)
Lemma dealloc_frame self' c' d' self c d (w : World) :
  owns self' c' d' w → owns self c d w → self ≠ self' → cd_id c ≠ cd_id c' →
  owns self' c' d' (exec (dealloc self) w).
Proof.
  intros [[cls' Hh'] Hf'] [[cls Hh] Hf] Hs Hc.
  unfold exec, dealloc. rewrite Hh. simpl. unfold collect. simpl.
  rewrite Hf. destruct d; simpl; (split; simpl;
    [exists cls'; by rewrite lookup_delete_ne|by rewrite lookup_delete_ne]).
Qed.

End Adoption.

(** The foreign calls of the re-hydration of a surface, in their order. *)
Lemma from_pointer_trace (L : CairoLib) (PyState : Type)
    (w : World L PyState) (p : pointer) (incref : bool) :
  p ≠ NULL →
  trace (exec (Surface_from_pointer p incref) w)
  = (trace w ++ (if incref then [call_surface_reference p] else [])
       ++ [call_surface_get_type p; call_surface_status p])%list ∧
  instances (exec (Surface_from_pointer p incref) w) = instances w.
Proof.
  intros Hp. unfold exec.
  rewrite Surface_from_pointer_run by done.
  rewrite construct_Surface_plain. simpl.
  destruct incref; simpl; by rewrite <- ?app_assoc.
Qed.

(** X7. Re-hydrating a non-null handle issues, in this order, the
    reference call when [incref] is true (and none otherwise), the type
    query and the status query, and nothing else, whether the status lets
    it succeed or not; it pins nothing.  Both families. *)
Theorem rehydration_calls (L : CairoLib) (PyState : Type)
    (w : World L PyState) (p : pointer) (incref : bool) :
  p ≠ NULL →
  (trace (exec (Surface_from_pointer p incref) w)
   = (trace w ++ (if incref then [call_surface_reference p] else [])
        ++ [call_surface_get_type p; call_surface_status p])%list ∧
   instances (exec (Surface_from_pointer p incref) w) = instances w) ∧
  (trace (exec (Pattern_from_pointer p incref) w)
   = (trace w ++ (if incref then [call_pattern_reference p] else [])
        ++ [call_pattern_get_type p; call_pattern_status p])%list ∧
   instances (exec (Pattern_from_pointer p incref) w) = instances w).
Proof.
  intros Hp. split; [by apply from_pointer_trace|]. unfold exec.
  rewrite Pattern_from_pointer_run by done.
  rewrite construct_Pattern_cases. simpl.
  destruct incref; simpl; by rewrite <- ?app_assoc.
Qed.

Lemma rehydration_calls_witness :
  trace (exec (Surface_from_pointer 1 true) (demo_world ()))
  = [call_surface_reference 1; call_surface_get_type 1; call_surface_status 1].
Proof.
  refine (proj1 (proj1 (rehydration_calls demo_cairo () (demo_world ()) 1 true
    _))).
  vm_compute. discriminate.
Defined.

(** X8. Re-hydrating a non-null surface handle whose status is not the
    success status raises the status error carrying that status; the
    caller gets no wrapper, but the one that was built holds the handle,
    and reclaiming it issues the release call: the reference taken with
    [incref] is given back. *)
Theorem failed_rehydration_releases (L : CairoLib) (PyState : Type)
    (w : World L PyState) (p : pointer) (incref : bool) :
  p ≠ NULL →
  lib_surface_status L (referenced_surface incref p w) p ≠ SUCCESS →
  let m := Surface_from_pointer p incref in
  outcome m w
  = Raise (CairoError (lib_surface_status L (referenced_surface incref p w) p))
  ∧ trace (exec (dealloc (next_obj w)) (exec m w))
    = (trace w ++ (if incref then [call_surface_reference p] else [])
         ++ [call_surface_get_type p; call_surface_status p;
             call_surface_destroy p])%list.
Proof.
  intros Hp Hst m. subst m.
  pose proof (proj1 (from_pointer_trace L PyState w p incref Hp)) as Ht.
  unfold outcome, exec in *.
  rewrite Surface_from_pointer_run in * by done.
  pose proof (construct_Surface_owns
    (default Surface
       (SURFACE_TYPE_TO_CLASS
          !! lib_surface_get_type L (referenced_surface incref p w) p))
    p PyNone (tagged_surface incref p w)) as [Ho _].
  destruct (dealloc_owned _ _ _ _ Ho) as (Hd & _).
  unfold exec in Hd.
  replace (next_obj (tagged_surface incref p w)) with (next_obj w) in Hd
    by (by destruct incref).
  rewrite Hd, Ht. simpl.
  split.
  - rewrite construct_Surface_plain.
    replace (foreign (tagged_surface incref p w))
      with (referenced_surface incref p w) by (by destruct incref).
    simpl. by rewrite decide_False.
  - destruct incref; simpl; by rewrite <- ?app_assoc.
Qed.

Lemma failed_rehydration_releases_witness :
  outcome (Surface_from_pointer 12 true) (demo_world ())
  = Raise (CairoError "NO_MEMORY").
Proof.
  refine (proj1 (failed_rehydration_releases demo_cairo () (demo_world ()) 12
    true _ _)); vm_compute; discriminate.
Defined.

(** X9. Wrappers own their handles independently.  While a wrapper holds
    a handle, building another wrapper, even around the same handle,
    operating on it and reclaiming it leaves the first one holding its
    handle; reclaiming the first one afterwards issues its own release
    call. *)
Theorem wrappers_release_independently (L : CairoLib) (PyState : Type)
    (w : World L PyState) (self' : nat) (c' : cdata) (d' : destructor)
    (cls : class) (p : pointer) (tka : pyobj) (ops : list surface_op) :
  owns self' c' d' w → self' ≠ next_obj w → cd_id c' ≠ next_cdata w →
  let self := next_obj w in
  let w2 := surface_calls self ops
              (exec (construct cls (λ self, Surface_init self p tka)) w) in
  let w3 := exec (dealloc self) w2 in
  trace w3 = (trace w2 ++ [call_surface_destroy p])%list ∧
  owns self' c' d' w3 ∧
  trace (exec (dealloc self') w3)
  = (trace w3 ++ [release_call d' (cd_addr c')])%list.
Proof.
  intros Ho' Hs Hc self w2 w3.
  assert (Hq : quiet (adopted cls p surface_destroy w) w2).
  { etransitivity; [|apply surface_calls_quiet].
    unfold exec. rewrite construct_Surface_run.
    apply steps_in_bind; [tc_solve|apply Surface_init_rest_quiet|].
    intros _. apply steps_in_ret. tc_solve. }
  assert (Ho2 : owns self {| cd_id := next_cdata w; cd_addr := p |}
                  surface_destroy w2)
    by (eapply quiet_owns; [exact Hq|apply adopted_owns]).
  assert (Ho2' : owns self' c' d' w2)
    by (eapply quiet_owns; [exact Hq|by apply adopted_frame]).
  destruct (dealloc_owned _ _ _ _ Ho2) as (Ht & _).
  assert (Ho3 : owns self' c' d' w3).
  { eapply dealloc_frame; [exact Ho2'|exact Ho2|by subst self|].
    simpl. congruence. }
  split; [exact Ht|split; [exact Ho3|]].
  by destruct (dealloc_owned _ _ _ _ Ho3) as (Ht' & _).
Qed.

Lemma wrappers_release_independently_witness :
  let w := exec (Surface_from_pointer 1 true) (demo_world ()) in
  let w3 := exec (dealloc 1)
              (exec (construct ImageSurface
                       (λ self, Surface_init self 1 PyNone)) w) in
  trace (exec (dealloc 0) w3) = (trace w3 ++ [call_surface_destroy 1])%list.
Proof.
  intros w w3.
  refine (proj2 (proj2 (wrappers_release_independently demo_cairo () w 0
    {| cd_id := 0; cd_addr := 1 |} surface_destroy ImageSurface 1 PyNone []
    _ _ _))).
  - split; [exists ImageSurface|]; vm_compute; reflexivity.
  - vm_compute. discriminate.
  - vm_compute. discriminate.
Defined.

(** ** [ImageSurface.__init__] past its guard *)

Section ImageSurfaces.

Context {L : CairoLib} {PyState : Type}.
Local Abbreviation World := (World L PyState).


End ImageSurfaces.






(** ** Streamed surfaces, [get_surface] and [get_color_stops] *)

Section Streams.

Context {L : CairoLib} {PyState : Type} (X : CairoMore L).
Local Abbreviation World := (World L PyState).
Local Abbreviation M := (M L PyState).

Lemma write_callback_same file :
  steps_in same_registry (write_callback file : M (option nat)).
Proof.
  unfold write_callback. destruct (_make_write_func file); [by intros w|].
  apply steps_in_ret. tc_solve.
Qed.

Lemma cairo_surface_create_for_stream_same b write_func wd ht :
  steps_in same_registry
    (cairo_surface_create_for_stream X b write_func wd ht : M pointer).
Proof. by intros w. Qed.

Lemma cairo_surface_create_same b name wd ht :
  steps_in same_registry (cairo_surface_create X b name wd ht : M pointer).
Proof. by intros w. Qed.

Lemma stream_surface_init_fail_safe b self target wd ht :
  fail_safe (stream_surface_init X b self target wd ht : M unit).
Proof.
  unfold stream_surface_init.
  destruct target;
    repeat (apply fail_safe_bind;
            [first [apply write_callback_same
                   |apply cairo_surface_create_for_stream_same
                   |apply cairo_surface_create_same]|intros ?]);
    apply Surface_init_fail_safe.
Qed.

(** The construction with an object that has [write] as its target. *)
Lemma stream_surface_file_run cls b f wd ht (w : World) :
  let cb := S (next_obj w) in
  let r := lib_surface_create_for_stream X b (foreign w) (Some cb) wd ht in
  let w0 := allocated cls w in
  let w2 := set_foreign r.1
              (call_surface_method
                 ("cairo_" +:+ backend_name b +:+ "_surface_create_for_stream")
                 r.2)
              (set_heap (heap w0) (S cb) w0) in
  construct cls (λ self, stream_surface_init X b self (TargetFile f) wd ht) w
  = (Surface_init (next_obj w) r.2 (PyCallback cb);; mret (next_obj w)) w2.
Proof. done. Qed.

End Streams.

(** X13. [PDFSurface], [PSSurface] and [SVGSurface] keep alive only a
    write callback.  With [None] or a file name as the target nothing is
    pinned, whatever the outcome; a construction that raises pins nothing
    with any target; with an object that has [write], on a new handle in
    a success state and with the user data accepted, the wrapper is
    returned with exactly one new bundle pinned, after the callback was
    handed to the stream constructor. *)
Theorem stream_surface_pins_its_callback (L : CairoLib) (PyState : Type)
    (X : CairoMore L) (w : World L PyState) (cls : class) (b : backend)
    (target : target) (wd ht : double X) :
  let m := construct cls
             (λ self, stream_surface_init X b self target wd ht) in
  ((∀ f, target ≠ TargetFile f) → instances (exec m w) = instances w) ∧
  (∀ e, outcome m w = Raise e → instances (exec m w) = instances w) ∧
  (∀ f, target = TargetFile f →
     let cb := S (next_obj w) in
     let r := lib_surface_create_for_stream X b (foreign w) (Some cb) wd ht in
     lib_surface_status L r.1 r.2 = SUCCESS →
     (lib_surface_set_user_data L r.1 r.2 (S cb)).2 = SUCCESS →
     outcome m w = Ok (next_obj w) ∧
     instances (exec m w) = {[S cb]} ∪ instances w ∧
     trace (exec m w)
     = (trace w
          ++ [call_surface_method
                ("cairo_" +:+ backend_name b +:+ "_surface_create_for_stream")
                r.2;
              call_surface_status r.2;
              call_surface_set_user_data r.2 (S cb)])%list).
Proof.
  intros m. subst m. split; [|split].
  - intros Hnofile. unfold exec, construct, stream_surface_init.
    destruct target as [|f|name]; [|by destruct (Hnofile f)|];
      unfold mbind, M_bind, bind, object_new, write_callback,
        cairo_surface_create_for_stream, cairo_surface_create; simpl;
      (erewrite Surface_init_cases; [|by (simpl; apply lookup_insert_eq)]);
      rewrite (decide_False (P := _ ∉ _))
        by (intros H; apply H; apply list_elem_of_In; simpl; tauto);
      by case_decide.
  - intros e Hr. eapply construct_fail_safe; [|exact Hr].
    intros self. apply stream_surface_init_fail_safe.
  - intros f -> cb r Hst Hud. unfold outcome, exec.
    rewrite stream_surface_file_run. fold cb. fold r.
    unfold mbind, M_bind, bind.
    erewrite Surface_init_cases; [|by (simpl; apply lookup_insert_eq)].
    assert (Htka : PyCallback cb ∉ [PyNone; FfiNULL]).
    { intros H. apply list_elem_of_In in H.
      destruct H as [H|[H|[]]]; discriminate H. }
    simpl in *. rewrite !decide_True by done. simpl.
    split; [done|split; [done|]]. by rewrite <- !app_assoc.
Qed.

Lemma stream_surface_pins_its_callback_witness :
  instances
    (exec (construct PDFSurface
             (λ self, PDFSurface_init demo_more self (TargetFile BytesIO)
                        (595 : double demo_more) (842 : double demo_more)))
       (demo_world {| unread := []; written := [] |}))
  = {[2%nat]} ∪ ∅ ∧
  instances
    (exec (construct SVGSurface
             (λ self, SVGSurface_init demo_more self
                        (TargetFilename (FileText "out.svg"))
                        (595 : double demo_more) (842 : double demo_more)))
       (demo_world {| unread := []; written := [] |}))
  = ∅.
Proof.
  split.
  - refine (proj1 (proj2 (proj2 (proj2 (stream_surface_pins_its_callback
      demo_cairo stream demo_more (demo_world _) PDFSurface PDF
      (TargetFile BytesIO) 595 842)) BytesIO eq_refl _ _)));
      vm_compute; reflexivity.
  - refine (proj1 (stream_surface_pins_its_callback demo_cairo stream
      demo_more (demo_world _) SVGSurface SVG
      (TargetFilename (FileText "out.svg")) 595 842) _).
    intros f. discriminate.
Defined.

Section PatternQueries.

Context {L : CairoLib} {PyState : Type} (X : CairoMore L).
Local Abbreviation World := (World L PyState).
Local Abbreviation M := (M L PyState).
Local Abbreviation stop :=
  (double X * double X * double X * double X * double X)%type.

(** [get_surface] up to the re-hydration. *)
Lemma get_surface_run self cls c (w : World) :
  heap w !! self = Some {| inst_class := cls; inst_pointer := Some c |} →
  let r := lib_pattern_get_surface X (foreign w) (cd_addr c) in
  let w1 := set_foreign (foreign w)
              (call_pattern_method "cairo_pattern_get_surface" (cd_addr c) "")
              w in
  get_surface X self w
  = if decide (r.1 = SUCCESS) then Surface_from_pointer r.2 true w1
    else (w1, Raise (CairoError r.1)).
Proof.
  intros Hh r w1.
  unfold get_surface, mbind, M_bind, bind, getattr_pointer,
    cairo_pattern_get_surface, query, _check_status.
  rewrite Hh. simpl. fold r. by destruct (decide (r.1 = SUCCESS)).
Qed.

(** The loop of [get_color_stops] when every stop left can be read. *)
Lemma get_color_stops_loop_ok self cls c indices stops (w : World) :
  heap w !! self = Some {| inst_class := cls; inst_pointer := Some c |} →
  (∀ i, i ∈ indices →
        (lib_pattern_get_color_stop_rgba X (foreign w) (cd_addr c) i).1
        = SUCCESS) →
  outcome (get_color_stops_loop X self indices stops) w
  = Ok (stops
          ++ ((λ i, (lib_pattern_get_color_stop_rgba X (foreign w) (cd_addr c)
                       i).2) <$> indices))%list ∧
  instances (exec (get_color_stops_loop X self indices stops) w)
  = instances w.
Proof.
  revert stops w. induction indices as [|i indices IH]; intros stops w Hh Hok.
  - simpl. by rewrite app_nil_r.
  - unfold outcome, exec in *. simpl.
    unfold mbind, M_bind, bind, getattr_pointer,
      cairo_pattern_get_color_stop_rgba, query, _check_status.
    rewrite Hh. simpl.
    rewrite decide_True by (apply Hok; by left). simpl.
    match goal with |- context [get_color_stops_loop X self indices ?s ?w'] =>
      destruct (IH s w') as [IHo IHi] end.
    { exact Hh. }
    { intros j Hj. simpl. apply Hok. by right. }
    simpl in IHo, IHi. rewrite IHo, IHi. by rewrite <- app_assoc.
Qed.

(** The loop stops at the first stop that cannot be read. *)
Lemma get_color_stops_loop_fails self cls c before j after stops (w : World) :
  heap w !! self = Some {| inst_class := cls; inst_pointer := Some c |} →
  (∀ i, i ∈ before →
        (lib_pattern_get_color_stop_rgba X (foreign w) (cd_addr c) i).1
        = SUCCESS) →
  (lib_pattern_get_color_stop_rgba X (foreign w) (cd_addr c) j).1 ≠ SUCCESS →
  outcome (get_color_stops_loop X self (before ++ j :: after) stops) w
  = Raise (CairoError
             (lib_pattern_get_color_stop_rgba X (foreign w) (cd_addr c) j).1).
Proof.
  revert stops w. induction before as [|i before IH]; intros stops w Hh Hok Hj.
  - unfold outcome. simpl.
    unfold mbind, M_bind, bind, getattr_pointer,
      cairo_pattern_get_color_stop_rgba, query, _check_status.
    rewrite Hh. simpl. by rewrite decide_False.
  - unfold outcome in *. simpl.
    unfold mbind, M_bind, bind, getattr_pointer,
      cairo_pattern_get_color_stop_rgba, query, _check_status.
    rewrite Hh. simpl.
    rewrite decide_True by (apply Hok; by left). simpl.
    match goal with |- context [get_color_stops_loop X self _ ?s ?w'] =>
      apply (IH s w') end; [exact Hh| |exact Hj].
    intros k Hk. simpl. apply Hok. by right.
Qed.

(** [get_color_stops] up to its loop. *)
Lemma get_color_stops_run self cls c (w : World) :
  heap w !! self = Some {| inst_class := cls; inst_pointer := Some c |} →
  let r := lib_pattern_get_color_stop_count X (foreign w) (cd_addr c) in
  let w1 := set_foreign (foreign w)
              (call_pattern_method "cairo_pattern_get_color_stop_count"
                 (cd_addr c) "") w in
  get_color_stops X self w
  = if decide (r.1 = SUCCESS)
    then get_color_stops_loop X self (seqZ 0 r.2) [] w1
    else (w1, Raise (CairoError r.1)).
Proof.
  intros Hh r w1.
  unfold get_color_stops, mbind, M_bind, bind, getattr_pointer,
    cairo_pattern_get_color_stop_count, query, _check_status.
  rewrite Hh. simpl. fold r. by destruct (decide (r.1 = SUCCESS)).
Qed.

End PatternQueries.

(** X14. [SurfacePattern.get_surface] on a pattern holding the handle
    [p].  When the foreign query reports an error the status error is
    raised with no reference taken and no wrapper built.  When it reports
    success with the null pointer, [ValueError] is raised.  When it
    reports success with a surface handle, that handle is re-hydrated
    with a reference of its own: the reference call precedes the type and
    status queries, and reclaiming the new wrapper gives the reference
    back with one release call. *)
Theorem get_surface_takes_its_own_reference (L : CairoLib) (PyState : Type)
    (X : CairoMore L) (w : World L PyState) (self : nat) (cls : class)
    (c : cdata) :
  heap w !! self = Some {| inst_class := cls; inst_pointer := Some c |} →
  let r := lib_pattern_get_surface X (foreign w) (cd_addr c) in
  let asked := call_pattern_method "cairo_pattern_get_surface" (cd_addr c) "" in
  let m := get_surface X self in
  (r.1 ≠ SUCCESS →
   outcome m w = Raise (CairoError r.1) ∧
   trace (exec m w) = (trace w ++ [asked])%list ∧
   heap (exec m w) = heap w ∧ finalizers (exec m w) = finalizers w) ∧
  (r.1 = SUCCESS → r.2 = NULL →
   outcome m w = Raise (ValueError "Null pointer") ∧
   trace (exec m w) = (trace w ++ [asked])%list) ∧
  (r.1 = SUCCESS → r.2 ≠ NULL →
   trace (exec m w)
   = (trace w ++ [asked; call_surface_reference r.2;
                  call_surface_get_type r.2; call_surface_status r.2])%list ∧
   trace (exec (dealloc (next_obj w)) (exec m w))
   = (trace (exec m w) ++ [call_surface_destroy r.2])%list ∧
   instances (exec m w) = instances w).
Proof.
  intros Hh r asked m. subst m. unfold outcome, exec.
  rewrite (get_surface_run X self cls c w Hh). fold r. fold asked.
  split; [|split].
  - intros Hst. by rewrite decide_False.
  - intros Hst Hnull. rewrite decide_True by done. by rewrite Hnull.
  - intros Hst Hp. rewrite decide_True by done.
    set (w1 := set_foreign (foreign w) asked w).
    destruct (from_pointer_trace L PyState w1 r.2 true Hp) as [Ht Hi].
    unfold exec in Ht, Hi.
    split; [rewrite Ht; simpl; by rewrite <- app_assoc|split; [|by rewrite Hi]].
    rewrite Surface_from_pointer_run by done.
    match goal with |- context [construct ?k ?i ?w0] =>
      pose proof (construct_Surface_owns k r.2 PyNone w0) as [Ho _] end.
    destruct (dealloc_owned _ _ _ _ Ho) as (Hd & _). exact Hd.
Qed.

Lemma get_surface_takes_its_own_reference_witness :
  let w := exec (construct SurfacePattern (λ self, Pattern_init self 8))
             (demo_world ()) in
  trace (exec (get_surface demo_more 0) w)
  = (trace w ++ [call_pattern_method "cairo_pattern_get_surface" 8 "";
                 call_surface_reference 1; call_surface_get_type 1;
                 call_surface_status 1])%list.
Proof.
  intros w.
  assert (Hh : heap w !! 0%nat
               = Some {| inst_class := SurfacePattern;
                         inst_pointer := Some {| cd_id := 0; cd_addr := 8 |} |})
    by (vm_compute; reflexivity).
  refine (proj1 (proj2 (proj2 (get_surface_takes_its_own_reference demo_cairo
    () demo_more w 0 SurfacePattern _ Hh)) _ _)).
  - vm_compute. reflexivity.
  - vm_compute. discriminate.
Defined.

(** X15. [Gradient.get_color_stops] on a gradient holding the handle [p].
    When the count cannot be read the status error of that query is
    raised.  When the count and every stop below it can be read, the
    result is the list of the stops of the indices 0, 1, ... below the
    count, in that order (the empty list for a count of zero or less),
    and nothing is pinned.  Otherwise the status error of the first stop
    that cannot be read is raised. *)
Theorem get_color_stops_in_order (L : CairoLib) (PyState : Type)
    (X : CairoMore L) (w : World L PyState) (self : nat) (cls : class)
    (c : cdata) :
  heap w !! self = Some {| inst_class := cls; inst_pointer := Some c |} →
  let cnt := lib_pattern_get_color_stop_count X (foreign w) (cd_addr c) in
  let stop := lib_pattern_get_color_stop_rgba X (foreign w) (cd_addr c) in
  let m := get_color_stops X self in
  (cnt.1 ≠ SUCCESS → outcome m w = Raise (CairoError cnt.1)) ∧
  (cnt.1 = SUCCESS → (∀ i, 0 ≤ i < cnt.2 → (stop i).1 = SUCCESS) →
   outcome m w = Ok ((λ i, (stop i).2) <$> seqZ 0 cnt.2) ∧
   (∀ stops, outcome m w = Ok stops → length stops = Z.to_nat cnt.2) ∧
   instances (exec m w) = instances w) ∧
  (∀ j, cnt.1 = SUCCESS → 0 ≤ j < cnt.2 →
        (∀ i, 0 ≤ i < j → (stop i).1 = SUCCESS) → (stop j).1 ≠ SUCCESS →
        outcome m w = Raise (CairoError (stop j).1)).
Proof.
  intros Hh cnt stop m. subst m. unfold outcome, exec.
  rewrite (get_color_stops_run X self cls c w Hh). fold cnt.
  set (w1 := set_foreign (foreign w)
               (call_pattern_method "cairo_pattern_get_color_stop_count"
                  (cd_addr c) "") w).
  assert (Hh1 : heap w1 !! self
                = Some {| inst_class := cls; inst_pointer := Some c |})
    by exact Hh.
  split; [|split].
  - intros Hst. by rewrite decide_False.
  - intros Hst Hok. rewrite decide_True by done.
    destruct (get_color_stops_loop_ok X self cls c (seqZ 0 cnt.2) [] w1 Hh1)
      as [Ho Hi].
    { intros i Hi. apply Hok. apply elem_of_seqZ in Hi. lia. }
    unfold outcome, exec in Ho, Hi. rewrite Ho, Hi. simpl.
    split; [done|split; [|done]].
    intros stops [= <-]. by rewrite length_fmap, length_seqZ.
  - intros j Hst Hj Hbefore Hfail. rewrite decide_True by done.
    replace cnt.2 with (j + (cnt.2 - j)) by lia.
    rewrite seqZ_app by lia.
    rewrite (seqZ_cons (0 + j)) by lia. simpl.
    apply (get_color_stops_loop_fails X self cls c); [exact Hh1| |exact Hfail].
    intros i Hi. apply Hbefore. apply elem_of_seqZ in Hi. lia.
Qed.

Lemma get_color_stops_in_order_witness :
  let linear := exec (construct LinearGradient (λ self, Pattern_init self 9))
                  (demo_world ()) in
  let radial := exec (construct RadialGradient (λ self, Pattern_init self 10))
                  (demo_world ()) in
  outcome (get_color_stops demo_more 0) linear
  = Ok [((0, 0, 0, 0, 1) : Z * Z * Z * Z * Z); (1, 10, 20, 30, 1)] ∧
  outcome (get_color_stops demo_more 0) radial
  = Raise (CairoError "INVALID_INDEX").
Proof.
  intros linear radial. split.
  - assert (Hh : heap linear !! 0%nat
                 = Some {| inst_class := LinearGradient;
                           inst_pointer := Some {| cd_id := 0; cd_addr := 9 |} |})
      by (vm_compute; reflexivity).
    refine (proj1 (proj1 (proj2 (get_color_stops_in_order demo_cairo ()
      demo_more linear 0 LinearGradient _ Hh)) _ _)).
    + vm_compute. reflexivity.
    + intros i Hi. change (0 ≤ i < 2) in Hi.
      assert (i = 0 ∨ i = 1) as [-> | ->] by lia; vm_compute; reflexivity.
  - assert (Hh : heap radial !! 0%nat
                 = Some {| inst_class := RadialGradient;
                           inst_pointer := Some {| cd_id := 0; cd_addr := 10 |} |})
      by (vm_compute; reflexivity).
    refine (proj2 (proj2 (get_color_stops_in_order demo_cairo () demo_more
      radial 0 RadialGradient _ Hh)) 1 _ _ _ _).
    + vm_compute. reflexivity.
    + vm_compute. split; [discriminate|reflexivity].
    + intros i Hi. assert (i = 0) as -> by lia. vm_compute. reflexivity.
    + vm_compute. discriminate.
Defined.


